(** * cf-compound-selection: the analyze page, the analysis store and the
      result page of the frontend

    Shallow embedding of
      - [AnalyzePage] / [handleAnalyze]      (app/analyze/page.tsx),
      - [AnalysisProvider] / [useAnalysis]   (context/AnalysisContext.tsx),
      - [formatToolCall] / [ResultContent]   (app/analyze/result/page.tsx),
    together with the part of the ECMAScript run time these functions rely
    on: binary64 numbers, [Number.prototype.toFixed], [Number::toString],
    [Math.floor], the [%] operator, [ToBoolean], [ToString] and property
    reads on values produced by [JSON.parse]. *)

From Stdlib Require Import ZArith List String Ascii Bool Lia.
From Stdlib Require Import Floats.SpecFloat.
Import ListNotations.
Local Open Scope string_scope.
Local Open Scope Z_scope.

Set Warnings "-register-all".

(* ================================================================== *)
(** ** Decimal digits of integers *)

Module Digits.

Definition digit_char (d : Z) : ascii :=
  ascii_of_nat (48 + Z.to_nat d).

(** Most significant digit first; [fuel] bounds the number of digits. *)
Fixpoint digits_aux (fuel : nat) (n : Z) (acc : string) : string :=
  match fuel with
  | O => acc
  | S fuel' =>
      let acc' := String (digit_char (n mod 10)) acc in
      if n / 10 =? 0 then acc' else digits_aux fuel' (n / 10) acc'
  end.

(** The decimal representation of a non-negative integer, without
    leading zeros ("0" for zero). *)
Definition decimal (n : Z) : string :=
  digits_aux (S (Z.to_nat (Z.log2 n))) n "".

Fixpoint zeros (k : nat) : string :=
  match k with
  | O => ""
  | S k' => String "0" (zeros k')
  end.

(** [String.prototype.padStart]-like left padding with "0" up to [len]. *)
Definition pad_left (len : nat) (s : string) : string :=
  zeros (len - String.length s) ++ s.

Definition take (k : nat) (s : string) : string := substring 0 k s.
Definition drop (k : nat) (s : string) : string :=
  substring k (String.length s - k) s.

End Digits.

(* ================================================================== *)
(** ** ECMAScript Number values: IEEE 754 binary64 *)

Module Num.
Import Digits.

(** A Number is a [spec_float] at precision 53 and maximal exponent
    1024.  The values that occur at run time are the canonical ones
    ([valid_binary]); the operations below keep them so. *)
Definition number := spec_float.

Definition prec : Z := 53.
Definition emax : Z := 1024.

(** The Number value of an integer literal (round to nearest even). *)
Definition of_Z (z : Z) : number := binary_normalize prec emax z 0 false.

Definition sub : number -> number -> number := SFsub prec emax.
Definition div : number -> number -> number := SFdiv prec emax.
(** [x < y] as a boolean ([IsLessThan]; [false] when either is NaN). *)
Definition ltb : number -> number -> bool := SFltb.
Definition leb : number -> number -> bool := SFleb.

(** *** Exact arithmetic on m * 2^e *)

Definition pow2 (e : Z) : Z := 2 ^ e.
Definition pow10 (e : Z) : Z := 10 ^ e.

(** floor (m * 2^e * 10^f + 1/2) for m >= 0: the integer n for which
    n / 10^f is closest to m * 2^e, the larger one on a tie. *)
Definition round_half_up_scaled (m e : Z) (f : Z) : Z :=
  if 0 <=? e then m * pow2 e * pow10 f
  else (2 * m * pow10 f + pow2 (- e)) / pow2 (1 - e).

(** *** Math.floor *)
Definition floor (x : number) : number :=
  match x with
  | S754_finite s m e =>
      if 0 <=? e then x
      else
        let q := Zpos m / pow2 (- e) in
        if s then
          (* floor of a negative non-integer: -(q + 1) *)
          of_Z (- (if Zpos m mod pow2 (- e) =? 0 then q else q + 1))
        else
          match q with
          | 0 => S754_zero false
          | _ => of_Z q
          end
  | _ => x
  end.

(** *** The [%] operator, Number::remainder(n, d): the result has the
    sign of the dividend and is computed exactly. *)
Definition rem (n d : number) : number :=
  match n, d with
  | S754_nan, _ | _, S754_nan => S754_nan
  | S754_infinity _, _ => S754_nan
  | _, S754_infinity _ => n
  | _, S754_zero _ => S754_nan
  | S754_zero _, _ => n
  | S754_finite sn mn en, S754_finite _ md ed =>
      let e := Z.min en ed in
      let N := Zpos mn * pow2 (en - e) in
      let D := Zpos md * pow2 (ed - e) in
      let R := N mod D in
      match R with
      | 0 => S754_zero sn
      | _ => binary_normalize prec emax (if sn then - R else R) e false
      end
  end.

(** *** Number::toString (radix 10)

    For a finite positive x = m * 2^e the specification asks for
    integers n, k, s with k >= 1, 10^(k-1) <= s < 10^k, such that
    s * 10^(n-k) rounds to x and k is as small as possible; among
    several s the one closest to x, the even one on a tie.  Below
    p = n - k, and the largest feasible p gives the smallest k. *)

(** Compare a * 10^p with b * 2^q (a, b >= 0; p, q any integers). *)
Definition cmp_scaled (a p b q : Z) : comparison :=
  Z.compare (a * pow10 (Z.max p 0) * pow2 (Z.max (- q) 0))
            (b * pow2 (Z.max q 0) * pow10 (Z.max (- p) 0)).

(** Does the real s * 10^p round (to nearest, ties to even) to the
    binary64 value m * 2^e?  The bounds are the midpoints between
    m * 2^e and its two neighbours. *)
Definition rounds_to (s p m e : Z) : bool :=
  let '(lm, le) :=
    if (m =? pow2 (prec - 1)) && (emin prec emax <? e)
    then (4 * m - 1, e - 2) else (2 * m - 1, e - 1) in
  let above :=
    match cmp_scaled s p lm le with
    | Gt => true | Eq => Z.even m | Lt => false
    end in
  let below :=
    match cmp_scaled s p (2 * m + 1) (e - 1) with
    | Lt => true | Eq => Z.even m | Gt => false
    end in
  (0 <? s) && above && below.

(** floor (m * 2^e / 10^p). *)
Definition floor_div_pow10 (m e p : Z) : Z :=
  (m * pow2 (Z.max e 0) * pow10 (Z.max (- p) 0))
  / (pow2 (Z.max (- e) 0) * pow10 (Z.max p 0)).

Definition candidate (p m e : Z) : option Z :=
  let s_lo := floor_div_pow10 m e p in
  let s_hi := s_lo + 1 in
  match rounds_to s_lo p m e, rounds_to s_hi p m e with
  | true, false => Some s_lo
  | false, true => Some s_hi
  | false, false => None
  | true, true =>
      match cmp_scaled (s_lo + s_hi) p (2 * m) e with
      | Gt => Some s_lo
      | Lt => Some s_hi
      | Eq => Some (if Z.even s_lo then s_lo else s_hi)
      end
  end.

Fixpoint search (steps : nat) (p m e : Z) : Z * Z :=
  match steps with
  | O => (floor_div_pow10 m e p, p)
  | S steps' =>
      match candidate p m e with
      | Some s => (s, p)
      | None => search steps' (p - 1) m e
      end
  end.

(** The shortest decimal (s, p), s * 10^p, that rounds to m * 2^e;
    17 significant digits always suffice, so the search stops. *)
Definition shortest (m : positive) (e : Z) : Z * Z :=
  let p0 := ((Zpos (digits2_pos m) + e) * 30103) / 100000 + 2 in
  search 24 p0 (Zpos m) e.

Definition toString_positive (m : positive) (e : Z) : string :=
  let '(s, p) := shortest m e in
  let ds := decimal s in
  let k := Z.of_nat (String.length ds) in
  let n := p + k in
  if (k <=? n) && (n <=? 21) then
    ds ++ zeros (Z.to_nat (n - k))
  else if (0 <? n) && (n <=? 21) then
    take (Z.to_nat n) ds ++ "." ++ drop (Z.to_nat n) ds
  else if (-6 <? n) && (n <=? 0) then
    "0." ++ zeros (Z.to_nat (- n)) ++ ds
  else
    let ex := n - 1 in
    let sgn := if 0 <=? ex then "+" else "-" in
    let mant := if k =? 1 then ds else take 1 ds ++ "." ++ drop 1 ds in
    mant ++ "e" ++ sgn ++ decimal (Z.abs ex).

Definition toString (x : number) : string :=
  match x with
  | S754_nan => "NaN"
  | S754_zero _ => "0"
  | S754_infinity s => if s then "-Infinity" else "Infinity"
  | S754_finite s m e =>
      (if s then "-" else "") ++ toString_positive m e
  end.

(** *** Number.prototype.toFixed(f) *)

(** The digits of n with a decimal point before the last f of them. *)
Definition fixed_digits (n : Z) (f : nat) : string :=
  let m := decimal n in
  match f with
  | O => m
  | S _ =>
      let m' := pad_left (S f) m in
      let k := String.length m' in
      take (k - f) m' ++ "." ++ drop (k - f) m'
  end.

Definition toFixed (x : number) (f : nat) : string :=
  match x with
  | S754_nan | S754_infinity _ => toString x
  | S754_zero _ => fixed_digits 0 f
  | S754_finite s m e =>
      (if s then "-" else "") ++
      (if leb (of_Z (pow10 21)) (S754_finite false m e)
       then toString_positive m e
       else fixed_digits (round_half_up_scaled (Zpos m) e (Z.of_nat f)) f)
  end.

End Num.

(* ================================================================== *)
(** ** Values at run time: what [JSON.parse] produces, and [undefined] *)

Module Js.
Import Num.

Inductive json : Type :=
| JNull
| JBool (b : bool)
| JNum (n : number)
| JStr (s : string)
| JArr (items : list json)
| JObj (fields : list (string * json)).

Inductive value : Type :=
| VUndefined
| VJson (j : json).

(** What a [throw] or a rejected promise carries.  [ErrorObject] stands
    for every instance of [Error] (TypeError, SyntaxError, ...). *)
Inductive thrown : Type :=
| ErrorObject (name message : string)
| NonError (v : value).

(** Completion of an evaluation: a value, or an exception. *)
Inductive completion (A : Type) : Type :=
| Normal (a : A)
| Throw (t : thrown).
Arguments Normal {A} a.
Arguments Throw {A} t.

Definition bindC {A B} (c : completion A) (k : A -> completion B)
  : completion B :=
  match c with
  | Normal a => k a
  | Throw t => Throw t
  end.

(** *** ToBoolean *)
Definition ToBoolean (v : value) : bool :=
  match v with
  | VUndefined | VJson JNull => false
  | VJson (JBool b) => b
  | VJson (JNum (S754_zero _)) | VJson (JNum S754_nan) => false
  | VJson (JNum _) => true
  | VJson (JStr s) => negb (s =? "")%string
  | VJson (JArr _) | VJson (JObj _) => true
  end.

(** [a || b] *)
Definition or_else (a b : value) : value :=
  if ToBoolean a then a else b.

(** *** Property reads

    The own-property table of a parsed object is an association list
    (a parsed object has each key once; the first binding is read).
    [Get] is used only at names that no built-in prototype defines
    ("detail", "conclusion", "rationale", "confidence", "relevance",
    "tool_trace"), so a miss on an object, and every read on a
    number, string, boolean or array, is [undefined]. *)
Fixpoint lookup (k : string) (fields : list (string * json)) : option json :=
  match fields with
  | [] => None
  | (k', v) :: rest => if (k' =? k)%string then Some v else lookup k rest
  end.

Definition has_key (k : string) (fields : list (string * json)) : bool :=
  match lookup k fields with Some _ => true | None => false end.

(** The value of property [k] of a JSON value that is not null. *)
Definition field (j : json) (k : string) : value :=
  match j with
  | JObj fields =>
      match lookup k fields with
      | Some v => VJson v
      | None => VUndefined
      end
  | _ => VUndefined
  end.

(** The TypeError of a property read on null or undefined (V8 wording). *)
Definition TypeError_read (base k : string) : thrown :=
  ErrorObject "TypeError"
    ("Cannot read properties of " ++ base ++ " (reading '" ++ k ++ "')").

(** [v.k] *)
Definition Get (v : value) (k : string) : completion value :=
  match v with
  | VUndefined => Throw (TypeError_read "undefined" k)
  | VJson JNull => Throw (TypeError_read "null" k)
  | VJson j => Normal (field j k)
  end.

(** [v?.k] *)
Definition GetOptional (v : value) (k : string) : value :=
  match v with
  | VUndefined | VJson JNull => VUndefined
  | VJson j => field j k
  end.

(** *** ToString

    A parsed object converts through [Object.prototype.toString]
    unless an own "toString" key (never callable after [JSON.parse])
    hides it; then OrdinaryToPrimitive finds no usable method and
    throws.  An array converts through [Array.prototype.join]. *)
Definition TypeError_primitive : thrown :=
  ErrorObject "TypeError" "Cannot convert object to primitive value".

Fixpoint ToString_json (j : json) : completion string :=
  match j with
  | JNull => Normal "null"
  | JBool b => Normal (if b then "true" else "false")
  | JNum n => Normal (Num.toString n)
  | JStr s => Normal s
  | JArr items =>
      (fix join (l : list json) : completion string :=
         match l with
         | [] => Normal ""
         | x :: rest =>
             bindC (match x with
                    | JNull => Normal ""
                    | _ => ToString_json x
                    end)
               (fun sx =>
                  match rest with
                  | [] => Normal sx
                  | _ :: _ =>
                      bindC (join rest)
                        (fun sr => Normal (sx ++ "," ++ sr))
                  end)
         end) items
  | JObj fields =>
      if has_key "toString" fields then Throw TypeError_primitive
      else Normal "[object Object]"
  end.

Definition ToString (v : value) : completion string :=
  match v with
  | VUndefined => Normal "undefined"
  | VJson j => ToString_json j
  end.

(** [new Error(message)]: the message is ToString(message) unless
    [message] is undefined, when it is the prototype's "". *)
Definition new_Error (message : value) : completion thrown :=
  match message with
  | VUndefined => Normal (ErrorObject "Error" "")
  | _ => bindC (ToString message)
           (fun s => Normal (ErrorObject "Error" s))
  end.

Definition str (s : string) : value := VJson (JStr s).

Definition json_is_null (j : json) : bool :=
  match j with
  | JNull => true
  | _ => false
  end.

End Js.

(* ================================================================== *)
(** ** app/analyze/page.tsx, lines 52-62: the elapsed-time formatter *)

Module Runtime.
Import Num.

(** [runtimeDisplay] as a function of [runtimeMs]. *)
Definition formatRuntime (runtimeMs : number) : string :=
  if ltb runtimeMs (of_Z 1000) then
    toFixed runtimeMs 0 ++ "ms"
  else if ltb runtimeMs (of_Z 60000) then
    toFixed (div runtimeMs (of_Z 1000)) 2 ++ "s"
  else
    let minutes := floor (div runtimeMs (of_Z 60000)) in
    let seconds := toFixed (div (rem runtimeMs (of_Z 60000)) (of_Z 1000)) 0 in
    toString minutes ++ "m " ++ seconds ++ "s".

End Runtime.

(* ================================================================== *)
(** ** context/AnalysisContext.tsx *)

Module AnalysisContext.
Import Js.

(** [interface AnalysisResult].  The field types of the interface are
    not checked at run time: [handleAnalyze] stores whatever the
    response body holds, so the fields read from the body are values. *)
Record AnalysisResult : Type := {
  compound : string;
  conclusion : value;
  rationale : value;
  runtime : string;
  confidence : value;
  relevance : value;
  toolTrace : value
}.

(** The state cell of [AnalysisProvider]:
    [useState<AnalysisResult | null>(null)]. *)
Definition store : Type := option AnalysisResult.

Definition initial : store := None.

(** [setResult(r)], the setter handed out in the context value. *)
Definition setResult (r : AnalysisResult) (_ : store) : store := Some r.

(** [result], as read by a consumer of the context. *)
Definition getResult (s : store) : option AnalysisResult := s.

(** [interface AnalysisContextType]: what the provider passes down.
    The setter is represented by the cell it writes to. *)
Record AnalysisContextType : Type := {
  result : option AnalysisResult
}.

(** The ancestors of a component in the tree, nearest first. *)
Inductive ancestor : Type :=
| AnalysisProviderNode (s : store)
| OtherNode (name : string).

(** [useContext(AnalysisContext)]: the value of the nearest provider,
    or the default given to [createContext], which is [undefined]
    (here [None]). *)
Fixpoint useContext (ancestors : list ancestor)
  : option AnalysisContextType :=
  match ancestors with
  | [] => None
  | AnalysisProviderNode s :: _ => Some {| result := getResult s |}
  | OtherNode _ :: rest => useContext rest
  end.

Definition useAnalysis (ancestors : list ancestor)
  : completion AnalysisContextType :=
  match useContext ancestors with
  | None =>
      Throw (ErrorObject "Error"
               "useAnalysis must be used within an AnalysisProvider")
  | Some context => Normal context
  end.

Definition inside_provider (ancestors : list ancestor) : Prop :=
  exists s, In (AnalysisProviderNode s) ancestors.

End AnalysisContext.

(* ================================================================== *)
(** ** app/analyze/page.tsx: [AnalyzePage] and [handleAnalyze] *)

Module AnalyzePage.
Import Num Js AnalysisContext Runtime.

(** The argument of [fetch].  [body] is the value handed to
    [JSON.stringify]. *)
Record Request : Type := {
  url : string;
  method : string;
  headers : list (string * string);
  body : json
}.

Inductive console_entry : Type :=
| ConsoleLog (label : string) (payload : list (string * value))
| ConsoleError (label : string) (error : thrown).

(** Everything the page reads or writes: its two [useState] cells, the
    cell of the [AnalysisProvider] above it (reached through
    [useAnalysis]), the router, the toaster, the network and the
    console.  State updates are taken to be rendered before the next
    event is handled. *)
Record State : Type := {
  isLoading : bool;
  drugName : string;
  result : store;
  route : string;
  toasts : list string;
  requests : list Request;
  console : list console_entry
}.

Definition setIsLoading (b : bool) (st : State) : State :=
  {| isLoading := b; drugName := drugName st; result := result st;
     route := route st; toasts := toasts st; requests := requests st;
     console := console st |}.

Definition setDrugName (s : string) (st : State) : State :=
  {| isLoading := isLoading st; drugName := s; result := result st;
     route := route st; toasts := toasts st; requests := requests st;
     console := console st |}.

Definition storeResult (r : AnalysisResult) (st : State) : State :=
  {| isLoading := isLoading st; drugName := drugName st;
     result := setResult r (result st);
     route := route st; toasts := toasts st; requests := requests st;
     console := console st |}.

Definition router_push (path : string) (st : State) : State :=
  {| isLoading := isLoading st; drugName := drugName st; result := result st;
     route := path; toasts := toasts st; requests := requests st;
     console := console st |}.

Definition toast_error (message : string) (st : State) : State :=
  {| isLoading := isLoading st; drugName := drugName st; result := result st;
     route := route st; toasts := (toasts st ++ [message])%list;
     requests := requests st; console := console st |}.

Definition fetch (r : Request) (st : State) : State :=
  {| isLoading := isLoading st; drugName := drugName st; result := result st;
     route := route st; toasts := toasts st;
     requests := (requests st ++ [r])%list; console := console st |}.

Definition console_write (e : console_entry) (st : State) : State :=
  {| isLoading := isLoading st; drugName := drugName st; result := result st;
     route := route st; toasts := toasts st; requests := requests st;
     console := (console st ++ [e])%list |}.

(** *** What the outside world answers *)

(** [response.json()]: the parsed body, or a rejection. *)
Inductive body_outcome : Type :=
| BodyJson (j : json)
| BodyRejects (t : thrown).

(** [await fetch(...)]: a rejection, or a response with its [ok] flag
    (status in 200..299) and body. *)
Inductive fetch_outcome : Type :=
| FetchRejects (t : thrown)
| FetchResponds (ok : bool) (b : body_outcome).

(** The answer together with the clock reading of line 50. *)
Record Settlement : Type := {
  outcome : fetch_outcome;
  endTime : number
}.

(** The variables an invocation keeps across its [await]. *)
Record Closure : Type := {
  c_drugName : string;
  c_startTime : number
}.

(** *** Statements: state passing with exceptions *)

Definition M (A : Type) : Type := State -> completion A * State.

Definition ret {A} (a : A) : M A := fun st => (Normal a, st).
Definition throw {A} (t : thrown) : M A := fun st => (Throw t, st).
Definition lift {A} (c : completion A) : M A := fun st => (c, st).
Definition effect (f : State -> State) : M unit :=
  fun st => (Normal tt, f st).
Definition bind {A B} (m : M A) (k : A -> M B) : M B :=
  fun st =>
    match m st with
    | (Normal a, st') => k a st'
    | (Throw t, st') => (Throw t, st')
    end.

Notation "x <- m ;; k" := (bind m (fun x => k))
  (at level 61, m at next level, right associativity).
Notation "m ;;; k" := (bind m (fun _ => k))
  (at level 61, right associativity).

Section WithEnv.

(** [process.env.NEXT_PUBLIC_BACKEND_URL]; [None] when not set. *)
Variable NEXT_PUBLIC_BACKEND_URL : option string.

Definition endpoint : string :=
  match NEXT_PUBLIC_BACKEND_URL with
  | Some base => base
  | None => "undefined"
  end ++ "/analyze_fibrosis".

Definition analyze_request (name : string) : Request :=
  {| url := endpoint;
     method := "POST";
     headers := [("Content-Type", "application/json")];
     body := JObj [("drug_name", JStr name)] |}.

(** Lines 19-34: up to the [await]. *)
Definition handleAnalyze_start (st : State) : State :=
  fetch (analyze_request (drugName st)) (setIsLoading true st).

Definition closure (st : State) (now : number) : Closure :=
  {| c_drugName := drugName st; c_startTime := now |}.

(** Lines 23-74: the [try] block once the fetch has settled. *)
Definition try_block (c : Closure) (w : Settlement) : M unit :=
  match outcome w with
  | FetchRejects t => throw t
  | FetchResponds ok b =>
      if negb ok then
        (* const errorData = await response.json().catch(() => null) *)
        let errorData :=
          match b with
          | BodyJson j => VJson j
          | BodyRejects _ => VJson JNull
          end in
        e <- lift (new_Error
                     (or_else (GetOptional errorData "detail")
                              (str "Failed to analyze compound"))) ;;
        throw e
      else
        data <- lift (match b with
                      | BodyJson j => Normal (VJson j)
                      | BodyRejects t => Throw t
                      end) ;;
        l_conclusion <- lift (Get data "conclusion") ;;
        l_relevance <- lift (Get data "relevance") ;;
        l_confidence <- lift (Get data "confidence") ;;
        l_rationale <- lift (Get data "rationale") ;;
        l_tool_trace <- lift (Get data "tool_trace") ;;
        effect (console_write
                  (ConsoleLog "Analysis Response:"
                     [("conclusion", l_conclusion);
                      ("relevance", l_relevance);
                      ("confidence", l_confidence);
                      ("rationale", l_rationale);
                      ("tool_trace", l_tool_trace)])) ;;;
        let runtimeMs := sub (endTime w) (c_startTime c) in
        let runtimeDisplay := formatRuntime runtimeMs in
        d_conclusion <- lift (Get data "conclusion") ;;
        d_rationale <- lift (Get data "rationale") ;;
        d_confidence <- lift (Get data "confidence") ;;
        d_relevance <- lift (Get data "relevance") ;;
        d_tool_trace <- lift (Get data "tool_trace") ;;
        effect (storeResult
                  {| compound := c_drugName c;
                     conclusion := d_conclusion;
                     rationale := d_rationale;
                     runtime := runtimeDisplay;
                     confidence := d_confidence;
                     relevance := d_relevance;
                     toolTrace := d_tool_trace |}) ;;;
        effect (router_push "/analyze/result")
  end.

(** [error instanceof Error ? error.message : "An unexpected error
    occurred"] *)
Definition error_text (error : thrown) : string :=
  match error with
  | ErrorObject _ message => message
  | NonError _ => "An unexpected error occurred"
  end.

(** Lines 75-79: the [catch] block. *)
Definition catch_block (error : thrown) (st : State) : State :=
  toast_error (error_text error)
    (console_write (ConsoleError "Error:" error) st).

(** Lines 22-82 after the [await]: try / catch / finally. *)
Definition handleAnalyze_resume (c : Closure) (w : Settlement)
           (st : State) : State :=
  let st' :=
    match try_block c w st with
    | (Normal _, st1) => st1
    | (Throw error, st1) => catch_block error st1
    end in
  setIsLoading false st'.

(** One whole invocation: started at clock reading [now], settled
    by [w], nothing else happening in between. *)
Definition handleAnalyze (now : number) (w : Settlement) (st : State)
  : State :=
  handleAnalyze_resume (closure st now) w (handleAnalyze_start st).

(** *** The button (lines 109-115) and the input (line 104) *)

(** [disabled={isLoading || !drugName}] *)
Definition button_disabled (st : State) : bool :=
  isLoading st || negb (ToBoolean (str (drugName st))).

(** *** The page as a machine: user events and settling requests

    [inflight] lists the invocations suspended at their [await], oldest
    first; it is the event loop's bookkeeping, not a variable of the
    page. *)

Record Page : Type := {
  ui : State;
  inflight : list Closure
}.

Inductive event : Type :=
| Change (text : string)            (* onChange of the input *)
| Click (now : number)              (* a click on the button *)
| Settle (i : nat) (w : Settlement) (* the i-th pending fetch settles *).

Fixpoint remove_nth {A} (i : nat) (l : list A) : list A :=
  match l, i with
  | [], _ => []
  | _ :: rest, O => rest
  | x :: rest, S i' => x :: remove_nth i' rest
  end.

Definition step (p : Page) (e : event) : Page :=
  match e with
  | Change text =>
      {| ui := setDrugName text (ui p); inflight := inflight p |}
  | Click now =>
      if button_disabled (ui p) then p
      else {| ui := handleAnalyze_start (ui p);
              inflight := (inflight p ++ [closure (ui p) now])%list |}
  | Settle i w =>
      match nth_error (inflight p) i with
      | None => p
      | Some c =>
          {| ui := handleAnalyze_resume c w (ui p);
             inflight := remove_nth i (inflight p) |}
      end
  end.

Definition run (p : Page) (es : list event) : Page :=
  fold_left step es p.

(** A freshly mounted page: [useState(false)], [useState("")]. *)
Definition mount (s : store) (path : string) : Page :=
  {| ui := {| isLoading := false; drugName := ""; result := s;
              route := path; toasts := []; requests := [];
              console := [] |};
     inflight := [] |}.

End WithEnv.

End AnalyzePage.

(* ================================================================== *)
(** ** app/analyze/result/page.tsx: [formatToolCall], [ResultContent] *)

Module ResultPage.
Import Js AnalysisContext.

(** Event handlers that occur in the page. *)
Inductive handler : Type :=
| PushRoute (path : string).

Inductive prop : Type :=
| PStr (s : string)
| PValue (v : value)
| PKey (k : nat)
| POnClick (h : handler).

(** What a component returns: [null], a value used as a child (a
    string, a number, ...), or an element.  Elements of components
    ([ScoreBar], [Button]) stay unexpanded, as in a React element
    tree. *)
Inductive node : Type :=
| NNull
| NValue (v : value)
| NElement (type : string) (props : list (string * prop))
           (children : list node).

Definition text (s : string) : node := NValue (str s).

Definition el (type className : string) (children : list node) : node :=
  NElement type [("className", PStr className)] children.

Definition no_tool_call : string := "No tool call information available.".

(** [toolTrace.map((trace, idx) => <li key={idx} ...>{trace}</li>)] *)
Fixpoint map_li (idx : nat) (items : list json) : list node :=
  match items with
  | [] => []
  | trace :: rest =>
      NElement "li" [("key", PKey idx); ("className", PStr "break-all")]
               [NValue (VJson trace)]
      :: map_li (S idx) rest
  end.

Definition formatToolCall (toolTrace : value) : node :=
  if negb (ToBoolean toolTrace) then text no_tool_call
  else
    match toolTrace with
    | VJson (JArr items) =>
        if (List.length items =? 0)%nat then text no_tool_call
        else el "ul" "list-disc pl-5" (map_li 0 items)
    | _ => NValue toolTrace
    end.

(** The values shown by the items of a rendered list, in order. *)
Definition item_values (n : node) : list value :=
  match n with
  | NElement "ul" _ children =>
      flat_map (fun li =>
                  match li with
                  | NElement "li" _ [NValue v] => [v]
                  | _ => []
                  end) children
  | _ => []
  end.

(** The result of rendering a component: what it returns and the
    [router.push] calls it made on the way. *)
Record Rendered : Type := {
  output : node;
  pushes : list string
}.

Definition card (title : string) (content : node) : node :=
  el "div" "mb-4 rounded-md bg-gray-100 p-4"
     [el "h3" "mb-1 font-semibold" [text title]; content].

Definition result_view (r : AnalysisResult) : node :=
  el "div" "mx-auto max-w-2xl rounded-xl bg-white p-8 text-gray-900 shadow-md"
    [ el "h2" "mb-6 text-2xl font-semibold" [text "Analysis Results"];
      card "Compound"
        (el "p" "text-lg font-medium" [text (compound r)]);
      card "Conclusion"
        (el "p" "text-lg font-medium" [NValue (conclusion r)]);
      card "Scores"
        (el "div" "mt-2"
           [ NElement "ScoreBar"
               [("value", PValue (relevance r)); ("label", PStr "Relevance")]
               [];
             NElement "ScoreBar"
               [("value", PValue (confidence r)); ("label", PStr "Confidence")]
               [] ]);
      card "Tool Call"
        (el "div" "whitespace-pre-line" [formatToolCall (toolTrace r)]);
      card "Reasoning"
        (el "p" "whitespace-pre-line" [NValue (rationale r)]);
      el "div"
         "flex flex-col md:flex-row md:items-center md:justify-between mt-8"
        [ NElement "div" []
            [ el "span" "block text-sm font-medium text-gray-600"
                 [text "Analysis Time"];
              el "span" "text-base" [text (runtime r)] ];
          NElement "Button"
            [("onClick", POnClick (PushRoute "/analyze"));
             ("className", PStr "mt-4 md:mt-0")]
            [text "Analyze Another Compound"] ] ].

(** [ResultContent], rendered below [ancestors]. *)
Definition ResultContent (ancestors : list ancestor)
  : completion Rendered :=
  bindC (useAnalysis ancestors)
    (fun context =>
       match result context with
       | None =>
           Normal {| output := NNull; pushes := ["/analyze"] |}
       | Some r =>
           Normal {| output := result_view r; pushes := [] |}
       end).

(** [null] is the one node that puts nothing on the screen. *)
Definition renders_nothing (n : node) : Prop := n = NNull.

(** *** [ScoreBar] (lines 26-47)

    The props are typed [value: number], [label: string]; the component
    is modelled on Number values.  [value >= 80] holds when 80 <= value,
    and never for NaN.  The inline style is kept as the prop
    "style.width". *)
Definition getColor (value : Num.number) : string :=
  if Num.leb (Num.of_Z 80) value then "bg-green-500"
  else if Num.leb (Num.of_Z 50) value then "bg-yellow-500"
  else "bg-red-500".

Definition ScoreBar (value : Num.number) (label : string) : node :=
  el "div" "mb-2"
    [ el "div" "flex justify-between mb-1"
        [ el "span" "text-sm font-medium text-gray-700" [text label];
          el "span" "text-sm font-medium text-gray-700"
             [NValue (VJson (JNum value)); text "%"] ];
      el "div" "w-full bg-gray-200 rounded-full h-2.5"
        [ NElement "div"
            [("className", PStr ("h-2.5 rounded-full " ++ getColor value));
             ("style.width", PStr (Num.toString value ++ "%"))]
            [] ] ].

(** The [key] props of a list of elements, in order. *)
Definition keys (nodes : list node) : list nat :=
  flat_map (fun n =>
              match n with
              | NElement _ props _ =>
                  flat_map (fun kv =>
                              match snd kv with
                              | PKey k => [k]
                              | _ => []
                              end) props
              | _ => []
              end) nodes.

End ResultPage.

(* ================================================================== *)
(** ** Vocabulary of the specification

    The specification speaks of outcomes ([Success], [Failure]), of blank
    names and of rounding; the definitions below say what these words
    mean on the model above.  They follow the specification's wording,
    not the code.  The states and the invariant used in the proofs and
    examples are here as well. *)

Module Spec.
Import Digits Num Js AnalysisContext Runtime AnalyzePage.

(** "blank (empty or whitespace-only)" *)
Definition is_space (a : ascii) : bool :=
  match nat_of_ascii a with
  | 32 | 9 | 10 | 11 | 12 | 13 => true
  | _ => false
  end%nat.

Fixpoint blank (s : string) : bool :=
  match s with
  | EmptyString => true
  | String a rest => is_space a && blank rest
  end.

(** "[Success{...}]": the value the specification expects in the
    Result Store for the invocation [c] answered by body [j] at
    [endTime]. *)
Definition Success (c : Closure) (j : json) (endTime : number)
  : AnalysisResult :=
  {| compound := c_drugName c;
     conclusion := field j "conclusion";
     rationale := field j "rationale";
     runtime := formatRuntime (sub endTime (c_startTime c));
     confidence := field j "confidence";
     relevance := field j "relevance";
     toolTrace := field j "tool_trace" |}.

(** "writes to the Result Store a Success value ... and then navigates
    to the result view" *)
Definition succeeded (c : Closure) (j : json) (endTime : number)
           (st' : State) : Prop :=
  result st' = Some (Success c j endTime) /\
  route st' = "/analyze/result".

(** "[Failure{message}]", as the controller handles it: the message is
    notified, the store and the route stay as they were. *)
Definition failed_with (message : string) (st st' : State) : Prop :=
  toasts st' = (toasts st ++ [message])%list /\
  result st' = result st /\
  route st' = route st.

(** "non-success HTTP status or transport fault": the fetch rejects, the
    status is not 2xx, or the body of a 2xx response does not parse. *)
Definition is_failure (o : fetch_outcome) : Prop :=
  match o with
  | FetchRejects _ => True
  | FetchResponds false _ => True
  | FetchResponds true (BodyRejects _) => True
  | FetchResponds true (BodyJson _) => False
  end.

Definition fallback_message : string := "Failed to analyze compound".

(** "body is JSON containing a detail field -> message equal to that
    detail value; no parseable body -> the fallback", as stated. *)
Inductive stated_message : body_outcome -> string -> Prop :=
| stated_detail fields s :
    lookup "detail" fields = Some (JStr s) ->
    stated_message (BodyJson (JObj fields)) s
| stated_unparseable t :
    stated_message (BodyRejects t) fallback_message.

(** The same with the detail restricted to non-empty strings. *)
Inductive error_message : body_outcome -> string -> Prop :=
| message_detail fields s :
    lookup "detail" fields = Some (JStr s) ->
    s <> "" ->
    error_message (BodyJson (JObj fields)) s
| message_unparseable t :
    error_message (BodyRejects t) fallback_message.

(** "using the fault's description or a generic fallback": the message
    of an Error that was thrown or rejected with, the generic text for
    anything else. *)
Definition generic_message : string := "An unexpected error occurred".

Definition fault_description (t : thrown) : string :=
  match t with
  | ErrorObject _ message => message
  | NonError _ => generic_message
  end.

(** The message of a response that is not 2xx, read from its body: the
    detail when the body parses and has a truthy one (as a string; the
    description of the fault when it has no string form), the fallback
    otherwise. *)
Definition status_message (b : body_outcome) : string :=
  match b with
  | BodyRejects _ => fallback_message
  | BodyJson j =>
      let detail := field j "detail" in
      if ToBoolean detail then
        match ToString detail with
        | Normal s => s
        | Throw t => fault_description t
        end
      else fallback_message
  end.

(** "[Failure{message}]": the message of each failure, read from the
    outcome of the fetch alone; [None] for an outcome that is no
    failure. *)
Definition failure_message (o : fetch_outcome) : option string :=
  match o with
  | FetchRejects t => Some (fault_description t)
  | FetchResponds true (BodyRejects t) => Some (fault_description t)
  | FetchResponds true (BodyJson _) => None
  | FetchResponds false b => Some (status_message b)
  end.

(** A settlement with the given outcome. *)
Definition settled (o : fetch_outcome) (t : number) : Settlement :=
  {| outcome := o; endTime := t |}.

(** A state of the submit view for examples. *)
Definition example_state (name : string) : State :=
  {| isLoading := false; drugName := name; result := None;
     route := "/analyze"; toasts := []; requests := []; console := [] |}.

Definition example_page (name : string) : Page :=
  {| ui := example_state name; inflight := [] |}.

(** Reachable pages: either nothing is in flight and the page is not
    busy, or exactly one invocation is in flight and the page is busy. *)
Definition busy_iff_inflight (p : Page) : Prop :=
  (inflight p = [] /\ isLoading (ui p) = false) \/
  ((exists c, inflight p = [c]) /\ isLoading (ui p) = true).

(** "rounded to nearest", "to f decimal places": n / 10^f is the
    decimal with f places nearest to m * 2^e, the larger one on a tie,
    that is n - 1/2 <= m * 2^e * 10^f < n + 1/2, written without
    fractions. *)
Definition nearest_scaled (n m e f : Z) : Prop :=
  if 0 <=? e then n = m * 2 ^ e * 10 ^ f
  else (2 * n - 1) * 2 ^ (- e) <= 2 * (m * 10 ^ f) < (2 * n + 1) * 2 ^ (- e).

(** The same for a Number q that is zero or positive and finite: c
    is the integer nearest to q * 10^f. *)
Definition nearest_to (c : Z) (q : number) (f : Z) : Prop :=
  match q with
  | S754_zero _ => c = 0
  | S754_finite false m e => nearest_scaled c (Zpos m) e f
  | _ => False
  end.

(** [f] holds of [count] consecutive integers from [start]. *)
Fixpoint all_from (count : nat) (start : Z) (f : Z -> bool) : bool :=
  match count with
  | O => true
  | S count' => f start && all_from count' (start + 1) f
  end.

(** The formatter on a whole number of milliseconds below one second,
    as the specification words it. *)
Definition whole_ms (n : Z) : string := decimal n ++ "ms".

End Spec.

(* ================================================================== *)
(** ** app/deploy/page.tsx: [DeployContent] and [handleDeploy]

    Together with the part of the platform it relies on:
    [encodeURIComponent], and the parsing of a query string into
    [URLSearchParams] (URL Standard, application/x-www-form-urlencoded).
    A string stands for the UTF-8 bytes of a text without lone
    surrogates, as the values of [URLSearchParams] are; decoding the
    bytes back into text is left implicit. *)

Module DeployPage.

(** The characters [encodeURIComponent] leaves as they are:
    letters, digits and - _ . ! ~ * ' ( ) *)
Definition unreserved (a : ascii) : bool :=
  let n := nat_of_ascii a in
  ((48 <=? n) && (n <=? 57) || (65 <=? n) && (n <=? 90) ||
   (97 <=? n) && (n <=? 122) ||
   (n =? 45) || (n =? 95) || (n =? 46) || (n =? 33) || (n =? 126) ||
   (n =? 42) || (n =? 39) || (n =? 40) || (n =? 41))%nat.

Definition hex_char (d : nat) : ascii :=
  ascii_of_nat (if (d <? 10)%nat then 48 + d else 55 + d).

(** "%XX" with upper-case hexadecimal digits. *)
Definition percent_encode (a : ascii) : string :=
  let n := nat_of_ascii a in
  String "%" (String (hex_char (n / 16)) (String (hex_char (n mod 16)) "")).

Fixpoint encodeURIComponent (s : string) : string :=
  match s with
  | EmptyString => ""
  | String a rest =>
      (if unreserved a then String a "" else percent_encode a)
      ++ encodeURIComponent rest
  end.

(** The value of a hexadecimal digit, of either case. *)
Definition hex_value (a : ascii) : option nat :=
  let n := nat_of_ascii a in
  (if (48 <=? n) && (n <=? 57) then Some (n - 48)
   else if (65 <=? n) && (n <=? 70) then Some (n - 55)
   else if (97 <=? n) && (n <=? 102) then Some (n - 87)
   else None)%nat.

(** Percent-decoding of the URL Standard: a "%" not followed by two
    hexadecimal digits stays. *)
Fixpoint percent_decode (s : string) : string :=
  match s with
  | EmptyString => ""
  | String a t =>
      if (a =? "%")%char then
        match t with
        | String h (String l r) =>
            match hex_value h, hex_value l with
            | Some x, Some y =>
                String (ascii_of_nat (16 * x + y)) (percent_decode r)
            | _, _ => String a (percent_decode t)
            end
        | _ => String a (percent_decode t)
        end
      else String a (percent_decode t)
  end.

(** The pieces of [s] between the occurrences of [sep]. *)
Fixpoint split_on (sep : ascii) (s : string) : list string :=
  match s with
  | EmptyString => [""]
  | String a rest =>
      if (a =? sep)%char then "" :: split_on sep rest
      else
        match split_on sep rest with
        | piece :: pieces => String a piece :: pieces
        | [] => [String a ""]
        end
  end.

(** The text before the first [sep] and the text after it ([None] when
    there is none). *)
Fixpoint cut (sep : ascii) (s : string) : string * option string :=
  match s with
  | EmptyString => ("", None)
  | String a rest =>
      if (a =? sep)%char then ("", Some rest)
      else let '(before, after) := cut sep rest in (String a before, after)
  end.

Fixpoint plus_to_space (s : string) : string :=
  match s with
  | EmptyString => ""
  | String a rest =>
      String (if (a =? "+")%char then " "%char else a) (plus_to_space rest)
  end.

(** [new URLSearchParams(query)]: the list of name-value pairs. *)
Definition parse_pair (piece : string) : string * string :=
  let '(name, value) := cut "=" piece in
  (percent_decode (plus_to_space name),
   percent_decode (plus_to_space
                     (match value with Some v => v | None => "" end))).

Definition parse_query (query : string) : list (string * string) :=
  map parse_pair
    (filter (fun piece => negb (piece =? "")%string) (split_on "&" query)).

(** The query of a URL: what follows the first "?", up to a "#". *)
Definition search_of (url : string) : string :=
  match snd (cut "?" (fst (cut "#" url))) with
  | Some q => q
  | None => ""
  end.

Definition URLSearchParams : Type := list (string * string).

(** [searchParams.get(name)]: the first value of that name, or null. *)
Fixpoint get (name : string) (params : URLSearchParams) : option string :=
  match params with
  | [] => None
  | (n, v) :: rest => if (n =? name)%string then Some v else get name rest
  end.

(** [searchParams.get(name) || "N/A"] *)
Definition get_or_NA (name : string) (params : URLSearchParams) : string :=
  match get name params with
  | Some v => if (v =? "")%string then "N/A" else v
  | None => "N/A"
  end.

(** [handleDeploy] of a [DeployContent] rendered with the given search
    parameters: the path it passes to [router.push]. *)
Definition handleDeploy (searchParams : URLSearchParams) : string :=
  let runtime := get_or_NA "runtime" searchParams in
  let cost := get_or_NA "cost" searchParams in
  let evaluationMetric := get_or_NA "metric" searchParams in
  "/deploy/finished?runtime=" ++ encodeURIComponent runtime ++
  "&cost=" ++ encodeURIComponent cost ++
  "&metric=" ++ encodeURIComponent evaluationMetric.

(** Every character of [s] satisfies [P]. *)
Fixpoint all_chars (P : ascii -> bool) (s : string) : bool :=
  match s with
  | EmptyString => true
  | String a rest => P a && all_chars P rest
  end.

(** What can occur in an encoded component: an unreserved character,
    "%" or a hexadecimal digit; none of & = # ? + / and no space. *)
Definition component_char (a : ascii) : bool :=
  unreserved a || (a =? "%")%char.

End DeployPage.

(* ================================================================== *)
(** ** Invariants of the analyze page *)

Module Invariants.
Import Js AnalysisContext AnalyzePage.

(** The number of [console.error] entries. *)
Fixpoint count_errors (entries : list console_entry) : nat :=
  match entries with
  | [] => O
  | ConsoleError _ _ :: rest => S (count_errors rest)
  | ConsoleLog _ _ :: rest => count_errors rest
  end.

(** Every request is pending or has left one console entry, and there
    is one toast for each [console.error]. *)
Definition accounted (p : Page) : Prop :=
  List.length (requests (ui p))
  = (List.length (console (ui p)) + List.length (inflight p))%nat /\
  List.length (toasts (ui p)) = count_errors (console (ui p)).

Section WithEnv.

Variable env : option string.

(** No empty name is pending, stored or was ever sent. *)
Definition named (p : Page) : Prop :=
  Forall (fun c => c_drugName c <> "") (inflight p) /\
  (forall r, result (ui p) = Some r -> compound r <> "") /\
  Forall (fun q => exists name, q = analyze_request env name /\ name <> "")
         (requests (ui p)).

End WithEnv.

(** The route is the result view only with a stored result. *)
Definition result_route_has_result (p : Page) : Prop :=
  route (ui p) = "/analyze/result" -> result (ui p) <> None.

(** Order of the three colours of [ScoreBar]. *)
Definition colour_rank (colour : string) : nat :=
  if (colour =? "bg-green-500")%string then 2
  else if (colour =? "bg-yellow-500")%string then 1
  else 0.

(** The colour of a whole score, read off the thresholds. *)
Definition whole_score_colour (n : Z) : string :=
  if 80 <=? n then "bg-green-500"
  else if 50 <=? n then "bg-yellow-500"
  else "bg-red-500".

(** The key by which [SFcompare] orders the numbers other than NaN:
    sign class first, then exponent, then mantissa. *)
Definition order_key (x : spec_float) : Z * Z * Z :=
  match x with
  | S754_infinity true => (-2, 0, 0)
  | S754_finite true m e => (-1, - e, - Zpos m)
  | S754_zero _ => (0, 0, 0)
  | S754_nan => (0, 0, 0)
  | S754_finite false m e => (1, e, Zpos m)
  | S754_infinity false => (2, 0, 0)
  end.

Definition key_le (k1 k2 : Z * Z * Z) : Prop :=
  let '(a1, b1, c1) := k1 in
  let '(a2, b2, c2) := k2 in
  a1 < a2 \/ (a1 = a2 /\ (b1 < b2 \/ (b1 = b2 /\ c1 <= c2))).

End Invariants.

(* ================================================================== *)
(** * Properties *)

Import Digits Num Js AnalysisContext Runtime AnalyzePage ResultPage Spec.

(** ** The analysis store *)

(** C9 - Whatever the stored value (so in particular for confidence and
    relevance in [0,100]): after [setResult r], reading the store gives
    [r] back, and a consumer below the provider reads it as [result]. *)
Theorem store_set_get :
  forall (r : AnalysisResult) (s : store) (above : list ancestor),
    getResult (setResult r s) = Some r /\
    useAnalysis (AnalysisProviderNode (setResult r s) :: above)
    = Normal {| AnalysisContext.result := Some r |}.
Proof.
  intros r s above. split; reflexivity.
Qed.

Lemma useContext_outside :
  forall ancestors,
    (forall s, ~ In (AnalysisProviderNode s) ancestors) ->
    useContext ancestors = None.
Proof.
  induction ancestors as [| a rest IH]; intros Hout.
  - reflexivity.
  - destruct a as [s | name].
    + exfalso. apply (Hout s). left. reflexivity.
    + simpl. apply IH. intros s Hin. apply (Hout s). right. exact Hin.
Qed.

Lemma useContext_inside :
  forall ancestors,
    inside_provider ancestors ->
    exists context, useContext ancestors = Some context.
Proof.
  induction ancestors as [| a rest IH]; intros [s Hin].
  - destruct Hin.
  - destruct a as [s' | name].
    + eexists. reflexivity.
    + simpl. apply IH. exists s.
      destruct Hin as [Heq | Hin]; [discriminate Heq | exact Hin].
Qed.

(** C10 - [useAnalysis] throws the Error "useAnalysis must be used within
    an AnalysisProvider" when no [AnalysisProvider] is among the
    ancestors of the caller, and returns a context value (does not throw)
    when one is. *)
Theorem useAnalysis_provider :
  forall ancestors,
    ((forall s, ~ In (AnalysisProviderNode s) ancestors) ->
     useAnalysis ancestors
     = Throw (ErrorObject "Error"
                "useAnalysis must be used within an AnalysisProvider")) /\
    (inside_provider ancestors ->
     exists context, useAnalysis ancestors = Normal context).
Proof.
  intros ancestors. split.
  - intros Hout. unfold useAnalysis.
    rewrite (useContext_outside ancestors Hout). reflexivity.
  - intros Hin. unfold useAnalysis.
    destruct (useContext_inside ancestors Hin) as [context Hctx].
    rewrite Hctx. exists context. reflexivity.
Qed.

Lemma useAnalysis_provider_witness :
  useAnalysis [OtherNode "Suspense"]
  = Throw (ErrorObject "Error"
             "useAnalysis must be used within an AnalysisProvider") /\
  exists context,
    useAnalysis [OtherNode "Suspense"; AnalysisProviderNode None]
    = Normal context.
Proof.
  split.
  - apply (proj1 (useAnalysis_provider [OtherNode "Suspense"])).
    intros s [H | []]. discriminate H.
  - apply (proj2 (useAnalysis_provider
                    [OtherNode "Suspense"; AnalysisProviderNode None])).
    exists None. right. left. reflexivity.
Defined.

(** ** The result page *)

(** C7 - When [ResultContent] is rendered below a provider whose store is
    empty, it calls [router.push("/analyze")] (back to the submit view)
    and returns [null]: nothing of the result view is rendered. *)
Theorem ResultContent_empty_store :
  forall ancestors,
    useContext ancestors = Some {| AnalysisContext.result := None |} ->
    exists rendered,
      ResultContent ancestors = Normal rendered /\
      pushes rendered = ["/analyze"] /\
      renders_nothing (output rendered).
Proof.
  intros ancestors Hctx.
  exists {| output := NNull; pushes := ["/analyze"] |}.
  unfold ResultContent, useAnalysis. rewrite Hctx. simpl.
  repeat split.
Qed.

Lemma ResultContent_empty_store_witness :
  exists rendered,
    ResultContent [OtherNode "Suspense"; AnalysisProviderNode initial]
    = Normal rendered /\
    pushes rendered = ["/analyze"] /\
    renders_nothing (output rendered).
Proof.
  apply ResultContent_empty_store. reflexivity.
Defined.

Lemma item_values_map_li :
  forall items idx,
    flat_map (fun li =>
                match li with
                | NElement "li" _ [NValue v] => [v]
                | _ => []
                end) (map_li idx items)
    = map VJson items.
Proof.
  induction items as [| trace rest IH]; intros idx.
  - reflexivity.
  - simpl. f_equal. apply IH.
Qed.

Lemma map_li_length :
  forall items idx, List.length (map_li idx items) = List.length items.
Proof.
  induction items as [| trace rest IH]; intros idx; simpl.
  - reflexivity.
  - f_equal. apply IH.
Qed.

(** C8 - [formatToolCall] gives the text "No tool call information
    available." for an absent trace ([undefined], also [null]) and for
    the empty array; for a non-empty array it gives a [ul] with one [li]
    per element, each showing its element unchanged, in the order of
    the array. *)
Theorem formatToolCall_array :
  formatToolCall VUndefined = text "No tool call information available." /\
  formatToolCall (VJson JNull) = text "No tool call information available." /\
  formatToolCall (VJson (JArr [])) = text "No tool call information available." /\
  forall items,
    items <> [] ->
    formatToolCall (VJson (JArr items))
    = el "ul" "list-disc pl-5" (map_li 0 items) /\
    List.length (map_li 0 items) = List.length items /\
    item_values (formatToolCall (VJson (JArr items))) = map VJson items.
Proof.
  repeat split; try reflexivity.
  - destruct items as [| trace rest]; [contradiction | reflexivity].
  - apply map_li_length.
  - destruct items as [| trace rest]; [contradiction |].
    unfold formatToolCall. simpl negb. cbv iota.
    change (List.length (trace :: rest) =? 0)%nat with false. cbv iota.
    unfold el, item_values. apply item_values_map_li.
Qed.

Lemma formatToolCall_array_witness :
  item_values
    (formatToolCall (VJson (JArr [JStr "pubmed_search(JQ1)"; JStr "summarize"])))
  = [str "pubmed_search(JQ1)"; str "summarize"].
Proof.
  apply (proj2 (proj2 (proj2 formatToolCall_array))).
  discriminate.
Defined.

(** ** The analyze page: one invocation of [handleAnalyze] *)

Lemma Get_not_null :
  forall j k, j <> JNull -> Get (VJson j) k = Normal (field j k).
Proof.
  intros j k Hj. destruct j; try reflexivity. contradiction.
Qed.

(** The [try] block on a 2xx response whose body parses to [j]. *)
Lemma try_block_success :
  forall c j t st,
    j <> JNull ->
    try_block c (settled (FetchResponds true (BodyJson j)) t) st
    = (Normal tt,
       router_push "/analyze/result"
         (storeResult (Success c j t)
            (console_write
               (ConsoleLog "Analysis Response:"
                  [("conclusion", field j "conclusion");
                   ("relevance", field j "relevance");
                   ("confidence", field j "confidence");
                   ("rationale", field j "rationale");
                   ("tool_trace", field j "tool_trace")]) st))).
Proof.
  intros c j t st Hj.
  unfold try_block, settled, bind, lift, effect.
  cbn [outcome negb endTime].
  rewrite !(Get_not_null j _ Hj). reflexivity.
Qed.

(** The [try] block throws on every failure, the rejection itself
    when the fetch or the body rejects. *)
Lemma try_block_failure :
  forall c w st,
    is_failure (outcome w) ->
    exists error,
      fst (try_block c w st) = Throw error /\
      (forall t, outcome w = FetchRejects t -> error = t) /\
      (forall t, outcome w = FetchResponds true (BodyRejects t) -> error = t).
Proof.
  intros c w st Hfail. unfold try_block.
  destruct (outcome w) as [t | [|] [j | t]]; simpl in Hfail;
    try contradiction.
  - exists t. repeat split; congruence.
  - exists t. repeat split; congruence.
  - cbn [negb]. unfold bind, lift, throw, fst.
    destruct (new_Error _) as [e | e]; exists e;
      repeat split; discriminate.
  - cbn [negb]. unfold bind, lift, throw, fst.
    destruct (new_Error _) as [e | e]; exists e;
      repeat split; discriminate.
Qed.

(** Whenever the [try] block throws, it has changed nothing yet. *)
Lemma try_block_throws_early :
  forall c w st error st1,
    try_block c w st = (Throw error, st1) -> st1 = st.
Proof.
  intros c w st error st1. unfold try_block.
  destruct (outcome w) as [t | [|] b]; cbn [negb].
  - unfold throw. congruence.
  - destruct b as [j | t].
    + destruct (json_is_null j) eqn:Hnull.
      * destruct j; try discriminate Hnull.
        unfold bind, lift. cbn. congruence.
      * assert (Hj : j <> JNull) by (intros ->; discriminate Hnull).
        unfold bind, lift, effect.
        rewrite !(Get_not_null j _ Hj). discriminate.
    + unfold bind, lift. congruence.
  - unfold bind, lift, throw.
    destruct (new_Error _) as [e | e]; congruence.
Qed.

(** C1 (amended) - For a 2xx response whose body parses to a JSON value
    other than [null], the invocation stores the Success value (the
    compound is the name the invocation was started with, the five
    fields are those of the body, the runtime is [formatRuntime] of
    end time minus start time) and pushes the route of the result
    view; so does a whole invocation, for the name in the input when
    it starts. *)
Theorem handleAnalyze_success :
  forall env c j t st now,
    j <> JNull ->
    succeeded c j t
      (handleAnalyze_resume c (settled (FetchResponds true (BodyJson j)) t) st) /\
    succeeded (closure st now) j t
      (handleAnalyze env now (settled (FetchResponds true (BodyJson j)) t) st).
Proof.
  intros env c j t st now Hj. unfold handleAnalyze, handleAnalyze_resume.
  rewrite !(try_block_success _ j t _ Hj).
  repeat split.
Qed.

(** Store, route and notifications do not tell the state an
    invocation was started from and the state just after its start
    apart. *)
Lemma failed_with_start :
  forall env message st st',
    failed_with message (handleAnalyze_start env st) st' ->
    failed_with message st st'.
Proof.
  intros env message st st' H. exact H.
Qed.

(** On every failure the notification is the failure's message; store
    and route stay. *)
Lemma resume_failure_message :
  forall c w st message,
    failure_message (outcome w) = Some message ->
    failed_with message st (handleAnalyze_resume c w st).
Proof.
  intros c w st message Hmsg.
  unfold handleAnalyze_resume, try_block.
  destruct (outcome w) as [t | [|] [j | t]]; cbn [failure_message] in Hmsg;
    try discriminate Hmsg; injection Hmsg as <-.
  - destruct t; repeat split.
  - destruct t; repeat split.
  - cbn [negb status_message].
    replace (GetOptional (VJson j) "detail") with (field j "detail")
      by (destruct j; reflexivity).
    unfold or_else, bind, lift, throw.
    destruct (ToBoolean (field j "detail")) eqn:Htruthy.
    + destruct (field j "detail") as [| d] eqn:Hd;
        [discriminate Htruthy |].
      unfold new_Error, bindC.
      destruct (ToString (VJson d)) as [s' | t'].
      * repeat split.
      * destruct t'; repeat split.
    + repeat split.
  - repeat split.
Qed.

(** C2 - After every invocation [isLoading] is false.  Whenever the
    [try] block throws, the text of what was thrown is passed to
    [toast.error] and neither the store nor the route changes; and it
    does throw when the fetch rejects, the status is not 2xx or the body
    does not parse (in the first and last case what was rejected).
    Every such failure has a message, fixed by the outcome of the fetch
    alone: the message of the Error when the fetch or the body of a 2xx
    response rejects with one ("An unexpected error occurred" when with
    something else), and for a status that is not 2xx the truthy detail
    of the body as a string, else "Failed to analyze compound".  That
    message is the one notification added, by the rest of an invocation
    and by a whole one, while store and route stay as they were. *)
Theorem handleAnalyze_failure :
  forall c w st,
    isLoading (handleAnalyze_resume c w st) = false /\
    (forall error,
        fst (try_block c w st) = Throw error ->
        failed_with (error_text error) st (handleAnalyze_resume c w st)) /\
    (is_failure (outcome w) ->
     exists error,
       fst (try_block c w st) = Throw error /\
       (forall t, outcome w = FetchRejects t -> error = t) /\
       (forall t, outcome w = FetchResponds true (BodyRejects t) -> error = t)) /\
    (is_failure (outcome w) ->
     exists message, failure_message (outcome w) = Some message) /\
    (forall message,
        failure_message (outcome w) = Some message ->
        failed_with message st (handleAnalyze_resume c w st) /\
        forall env now,
          failed_with message st (handleAnalyze env now w st)).
Proof.
  intros c w st. split; [reflexivity | split; [| split; [| split]]].
  - intros error Hthrow. unfold handleAnalyze_resume.
    destruct (try_block c w st) as [completion st1] eqn:Htry.
    simpl in Hthrow. subst completion.
    rewrite (try_block_throws_early c w st error st1 Htry).
    repeat split.
  - apply try_block_failure.
  - intros Hfail.
    destruct (outcome w) as [t | [|] [j | t]]; simpl in Hfail;
      try contradiction; eexists; reflexivity.
  - intros message Hmsg. split.
    + apply resume_failure_message. exact Hmsg.
    + intros env now. unfold handleAnalyze.
      apply (failed_with_start env).
      apply resume_failure_message. exact Hmsg.
Qed.

(** C3 (amended) - For a response that is not 2xx: when the body is a
    JSON object whose detail field is a non-empty string, the Error
    thrown and notified has that string as message; when the body
    does not parse, the message is "Failed to analyze compound". *)
Theorem handleAnalyze_error_message :
  forall c t st b message,
    error_message b message ->
    fst (try_block c (settled (FetchResponds false b) t) st)
    = Throw (ErrorObject "Error" message) /\
    failed_with message st
      (handleAnalyze_resume c (settled (FetchResponds false b) t) st).
Proof.
  intros c t st b message Hmsg.
  assert (Htry : try_block c (settled (FetchResponds false b) t) st
                 = (Throw (ErrorObject "Error" message), st)).
  { destruct Hmsg as [fields s Hdetail Hne | t'].
    - unfold try_block, settled, bind, lift, throw. simpl.
      rewrite Hdetail. unfold or_else. simpl.
      destruct s as [| a s']; [contradiction | reflexivity].
    - reflexivity. }
  unfold handleAnalyze_resume. rewrite Htry.
  repeat split.
Qed.

Lemma handleAnalyze_success_witness :
  succeeded
    (closure (example_state "JQ1") (of_Z 100))
    (JObj [("conclusion", JStr "inhibits"); ("confidence", JNum (of_Z 80))])
    (of_Z 1350)
    (handleAnalyze None (of_Z 100)
       (settled
          (FetchResponds true
             (BodyJson (JObj [("conclusion", JStr "inhibits");
                              ("confidence", JNum (of_Z 80))])))
          (of_Z 1350))
       (example_state "JQ1")).
Proof.
  apply (handleAnalyze_success None
           (closure (example_state "JQ1") (of_Z 100))
           (JObj [("conclusion", JStr "inhibits"); ("confidence", JNum (of_Z 80))])
           (of_Z 1350) (example_state "JQ1") (of_Z 100)).
  discriminate.
Defined.

(** C1, as stated, fails for the body [null]: it parses, the read of
    [data.conclusion] throws, nothing is stored and the route stays. *)
Lemma handleAnalyze_null_body :
  ~ succeeded
      (closure (example_state "JQ1") (of_Z 100)) JNull (of_Z 1350)
      (handleAnalyze None (of_Z 100)
         (settled (FetchResponds true (BodyJson JNull)) (of_Z 1350))
         (example_state "JQ1")).
Proof.
  intros [Hstore _]. discriminate Hstore.
Qed.

Lemma handleAnalyze_failure_witness :
  failed_with "Failed to fetch"
    (handleAnalyze_start None (example_state "JQ1"))
    (handleAnalyze None (of_Z 100)
       (settled (FetchRejects (ErrorObject "TypeError" "Failed to fetch"))
                (of_Z 0))
       (example_state "JQ1")) /\
  (exists error,
    fst (try_block (closure (example_state "JQ1") (of_Z 100))
           (settled (FetchResponds false (BodyRejects (NonError VUndefined)))
                    (of_Z 0))
           (handleAnalyze_start None (example_state "JQ1")))
    = Throw error) /\
  failed_with "model overloaded"
    (example_state "JQ1")
    (handleAnalyze None (of_Z 100)
       (settled
          (FetchResponds false
             (BodyJson (JObj [("detail", JStr "model overloaded")])))
          (of_Z 0))
       (example_state "JQ1")) /\
  failed_with "An unexpected error occurred"
    (example_state "JQ1")
    (handleAnalyze None (of_Z 100)
       (settled (FetchRejects (NonError (str "offline"))) (of_Z 0))
       (example_state "JQ1")).
Proof.
  split; [| split; [| split]].
  - apply (proj1 (proj2 (handleAnalyze_failure
                           (closure (example_state "JQ1") (of_Z 100))
                           (settled (FetchRejects
                                       (ErrorObject "TypeError" "Failed to fetch"))
                                    (of_Z 0))
                           (handleAnalyze_start None (example_state "JQ1"))))
             (ErrorObject "TypeError" "Failed to fetch")).
    reflexivity.
  - destruct (proj1 (proj2 (proj2 (handleAnalyze_failure
                              (closure (example_state "JQ1") (of_Z 100))
                              (settled (FetchResponds false
                                          (BodyRejects (NonError VUndefined)))
                                       (of_Z 0))
                              (handleAnalyze_start None (example_state "JQ1")))))
                    I) as (error & Hthrow & _).
    exists error. exact Hthrow.
  - apply (proj2 (proj2 (proj2 (proj2 (proj2 (handleAnalyze_failure
                    (closure (example_state "JQ1") (of_Z 100))
                    (settled
                       (FetchResponds false
                          (BodyJson (JObj [("detail", JStr "model overloaded")])))
                       (of_Z 0))
                    (example_state "JQ1")))))
             "model overloaded" eq_refl) None (of_Z 100)).
  - apply (proj2 (proj2 (proj2 (proj2 (proj2 (handleAnalyze_failure
                    (closure (example_state "JQ1") (of_Z 100))
                    (settled (FetchRejects (NonError (str "offline"))) (of_Z 0))
                    (example_state "JQ1")))))
             "An unexpected error occurred" eq_refl) None (of_Z 100)).
Defined.

Lemma handleAnalyze_error_message_witness :
  failed_with "rate limited"
    (handleAnalyze_start None (example_state "JQ1"))
    (handleAnalyze None (of_Z 100)
       (settled
          (FetchResponds false
             (BodyJson (JObj [("detail", JStr "rate limited")])))
          (of_Z 0))
       (example_state "JQ1")).
Proof.
  apply (proj2 (handleAnalyze_error_message
                  (closure (example_state "JQ1") (of_Z 100)) (of_Z 0)
                  (handleAnalyze_start None (example_state "JQ1"))
                  (BodyJson (JObj [("detail", JStr "rate limited")]))
                  "rate limited"
                  (message_detail [("detail", JStr "rate limited")]
                     "rate limited" eq_refl
                     (fun H => match H with end)))).
Defined.

(** C3, as stated, fails for the body [{"detail": ""}]: the empty string
    is falsy, so [||] picks the fallback text. *)
Lemma handleAnalyze_empty_detail :
  stated_message (BodyJson (JObj [("detail", JStr "")])) "" /\
  ~ failed_with ""
      (handleAnalyze_start None (example_state "JQ1"))
      (handleAnalyze None (of_Z 100)
         (settled (FetchResponds false (BodyJson (JObj [("detail", JStr "")])))
                  (of_Z 0))
         (example_state "JQ1")) /\
  failed_with "Failed to analyze compound"
      (handleAnalyze_start None (example_state "JQ1"))
      (handleAnalyze None (of_Z 100)
         (settled (FetchResponds false (BodyJson (JObj [("detail", JStr "")])))
                  (of_Z 0))
         (example_state "JQ1")).
Proof.
  split; [| split].
  - apply stated_detail. reflexivity.
  - intros [Htoast _]. discriminate Htoast.
  - repeat split.
Qed.

(** ** The analyze page: the button and the page as a machine *)

Section Machine.

Variable env : option string.

(** [handleAnalyze] itself checks nothing: whatever the name and the
    busy flag, it sets [isLoading] and issues the request. *)
Lemma handleAnalyze_start_unguarded :
  forall st,
    isLoading (handleAnalyze_start env st) = true /\
    requests (handleAnalyze_start env st)
    = (requests st ++ [analyze_request env (drugName st)])%list.
Proof.
  intros st. split; reflexivity.
Qed.

(** C5 (amended) - With the empty compound name the button is disabled:
    a click issues no request and changes nothing, the busy flag
    included. *)
Theorem click_empty_name :
  forall p now,
    drugName (ui p) = "" ->
    step env p (Click now) = p.
Proof.
  intros p now Hname. unfold step, button_disabled.
  rewrite Hname. simpl. rewrite orb_true_r. reflexivity.
Qed.

Lemma step_busy_iff_inflight :
  forall p e, busy_iff_inflight p -> busy_iff_inflight (step env p e).
Proof.
  intros p e Hinv. destruct e as [text | now | i w].
  - (* Change *)
    destruct Hinv as [[Hq Hl] | [Hq Hl]]; [left | right];
      split; assumption.
  - (* Click *)
    unfold step. destruct (button_disabled (ui p)) eqn:Hdis.
    + exact Hinv.
    + destruct Hinv as [[Hq Hl] | [Hq Hl]].
      * right. split.
        -- exists (closure (ui p) now). simpl. rewrite Hq. reflexivity.
        -- reflexivity.
      * unfold button_disabled in Hdis. rewrite Hl in Hdis.
        discriminate Hdis.
  - (* Settle *)
    unfold step. destruct (nth_error (inflight p) i) as [c |] eqn:Hnth.
    + destruct Hinv as [[Hq Hl] | [[c' Hq] Hl]].
      * rewrite Hq in Hnth. destruct i; discriminate Hnth.
      * left. split; [| reflexivity]. simpl. rewrite Hq in *.
        destruct i as [| i'].
        -- reflexivity.
        -- destruct i'; discriminate Hnth.
    + exact Hinv.
Qed.

Lemma run_busy_iff_inflight :
  forall es p, busy_iff_inflight p -> busy_iff_inflight (run env p es).
Proof.
  induction es as [| e es IH]; intros p Hinv.
  - exact Hinv.
  - simpl. apply IH. apply step_busy_iff_inflight. exact Hinv.
Qed.

(** C6 - On every page reached from a freshly mounted one by any
    sequence of input changes, clicks and settling requests: at most
    one invocation is in flight; and while one is in flight, or the busy
    flag is set, a click changes nothing (no request, no new
    invocation). *)
Theorem click_while_busy :
  forall s path es now,
    let p := run env (mount s path) es in
    (List.length (inflight p) <= 1)%nat /\
    (inflight p <> [] -> step env p (Click now) = p) /\
    (isLoading (ui p) = true -> step env p (Click now) = p).
Proof.
  intros s path es now p.
  assert (Hinv : busy_iff_inflight p).
  { apply run_busy_iff_inflight. left. split; reflexivity. }
  assert (Hbusy : isLoading (ui p) = true -> step env p (Click now) = p).
  { intros Hl. unfold step, button_disabled. rewrite Hl. reflexivity. }
  split; [| split].
  - destruct Hinv as [[Hq _] | [[c Hq] _]]; rewrite Hq; simpl; lia.
  - intros Hne. apply Hbusy.
    destruct Hinv as [[Hq _] | [_ Hl]]; [contradiction | exact Hl].
  - exact Hbusy.
Qed.

(** The name stored is the one submitted, also when the input is edited
    while the request is pending; the result page then shows the stored
    value. *)
Lemma submit_edit_settle :
  forall p now text j t,
    button_disabled (ui p) = false ->
    inflight p = [] ->
    j <> JNull ->
    let p' := run env p [Click now; Change text;
                         Settle 0 (settled (FetchResponds true (BodyJson j)) t)] in
    succeeded (closure (ui p) now) j t (ui p') /\
    ResultContent [OtherNode "Suspense"; AnalysisProviderNode (result (ui p'))]
    = Normal {| output := result_view (Success (closure (ui p) now) j t);
                pushes := [] |}.
Proof.
  intros p now text j t Hen Hq Hj p'.
  assert (Hui : ui p'
                = handleAnalyze_resume (closure (ui p) now)
                    (settled (FetchResponds true (BodyJson j)) t)
                    (setDrugName text (handleAnalyze_start env (ui p)))).
  { unfold p', run. cbn [fold_left].
    unfold step at 3. rewrite Hen.
    unfold step at 2. cbn [ui inflight].
    unfold step. cbn [ui inflight]. rewrite Hq. reflexivity. }
  rewrite Hui. unfold handleAnalyze_resume.
  rewrite (try_block_success _ j t _ Hj).
  repeat split.
Qed.

End Machine.

Lemma click_empty_name_witness :
  step None (example_page "") (Click (of_Z 100)) = example_page "".
Proof.
  apply click_empty_name. reflexivity.
Defined.

(** C5, as stated, fails for the blank name " ": the button is enabled,
    and the click sets the busy flag and issues the request. *)
Lemma click_whitespace_name :
  blank " " = true /\
  requests (ui (step None (example_page " ") (Click (of_Z 100))))
  = [analyze_request None " "] /\
  requests (ui (example_page " ")) = [] /\
  isLoading (ui (step None (example_page " ") (Click (of_Z 100)))) = true /\
  isLoading (ui (example_page " ")) = false.
Proof.
  repeat split.
Qed.

Lemma click_while_busy_witness :
  let p := run None (mount None "/analyze")
               [Change "JQ1"; Click (of_Z 100)] in
  inflight p <> [] /\
  isLoading (ui p) = true /\
  step None p (Click (of_Z 200)) = p.
Proof.
  intros p. split; [discriminate | split; [reflexivity |]].
  apply (proj1 (proj2 (click_while_busy None None "/analyze"
                         [Change "JQ1"; Click (of_Z 100)] (of_Z 200)))).
  discriminate.
Defined.

(** ** The elapsed-time formatter *)

Lemma all_from_spec :
  forall f count start,
    all_from count start f = true ->
    forall n, start <= n < start + Z.of_nat count -> f n = true.
Proof.
  induction count as [| count IH]; intros start Hall n Hn.
  - simpl in Hn. lia.
  - simpl in Hall. apply andb_true_iff in Hall. destruct Hall as [Hhd Htl].
    destruct (Z.eq_dec n start) as [-> | Hne]; [exact Hhd |].
    apply (IH (start + 1) Htl). lia.
Qed.

Lemma whole_ms_below_1000 :
  forall n, 0 <= n < 1000 -> formatRuntime (of_Z n) = whole_ms n.
Proof.
  intros n Hn.
  apply String.eqb_eq.
  apply (all_from_spec
           (fun n => (formatRuntime (of_Z n) =? whole_ms n)%string)
           (Z.to_nat 1000) 0);
    [vm_compute; reflexivity | rewrite Z2Nat.id; lia].
Qed.

Lemma round_half_up_nearest :
  forall m e f,
    nearest_scaled (round_half_up_scaled m e f) m e f.
Proof.
  intros m e f. unfold nearest_scaled, round_half_up_scaled, pow2, pow10.
  destruct (0 <=? e) eqn:He; [reflexivity |].
  apply Z.leb_gt in He.
  replace (1 - e) with (Z.succ (- e)) by lia.
  rewrite Z.pow_succ_r by lia.
  set (D := 2 ^ (- e)). set (A := m * 10 ^ f).
  assert (HD : 0 < D) by (apply Z.pow_pos_nonneg; lia).
  replace (2 * m * 10 ^ f) with (2 * A) by (unfold A; ring).
  pose proof (Z.div_mod (2 * A + D) (2 * D) ltac:(lia)) as Hdm.
  pose proof (Z.mod_pos_bound (2 * A + D) (2 * D) ltac:(lia)) as Hr.
  set (n := (2 * A + D) / (2 * D)) in *.
  set (r := (2 * A + D) mod (2 * D)) in *.
  nia.
Qed.

(** [toFixed] below 10^21 prints the nearest decimal with f places. *)
Lemma toFixed_nearest :
  forall m e f,
    leb (of_Z (10 ^ 21)) (S754_finite false m e) = false ->
    exists n,
      toFixed (S754_finite false m e) f = fixed_digits n f /\
      nearest_scaled n (Zpos m) e (Z.of_nat f).
Proof.
  intros m e f Hsmall.
  exists (round_half_up_scaled (Zpos m) e (Z.of_nat f)). split.
  - unfold toFixed. change (pow10 21) with (10 ^ 21). rewrite Hsmall.
    reflexivity.
  - apply round_half_up_nearest.
Qed.

(** [SFcompare] read in the other direction. *)
Lemma SFcompare_antisym :
  forall x y c, SFcompare x y = Some c -> SFcompare y x = Some (CompOpp c).
Proof.
  intros x y c H.
  destruct x as [sx | sx | | sx mx ex], y as [sy | sy | | sy my ey];
    simpl in *; try discriminate;
    try (destruct sx; injection H as <-; reflexivity);
    try (destruct sy; injection H as <-; reflexivity);
    try (destruct sx, sy; injection H as <-; reflexivity).
  injection H as <-.
  pose proof (Z.compare_antisym ex ey) as Hz.
  pose proof (Pos.compare_cont_antisym mx my Eq) as Hp.
  simpl in Hp.
  destruct sx, sy; try reflexivity;
    destruct (ex ?= ey), (ey ?= ex); simpl in Hz; try discriminate Hz;
    try reflexivity; f_equal;
    destruct (Pos.compare_cont Eq mx my), (Pos.compare_cont Eq my mx);
    simpl in *; congruence.
Qed.

Lemma leb_not_ltb :
  forall x y, leb x y = true -> ltb y x = false.
Proof.
  intros x y H. unfold leb, SFleb in H. unfold ltb, SFltb.
  destruct (SFcompare x y) as [c |] eqn:Hc; [| discriminate].
  rewrite (SFcompare_antisym x y c Hc).
  destruct c; [reflexivity | reflexivity | discriminate].
Qed.

Lemma from_60000_not_below_1000 :
  forall d, leb (of_Z 60000) d = true -> ltb d (of_Z 1000) = false.
Proof.
  intros d H.
  assert (E6 : of_Z 60000 = S754_finite false 8246337208320000 (-37))
    by (vm_compute; reflexivity).
  assert (E1 : of_Z 1000 = S754_finite false 8796093022208000 (-43))
    by (vm_compute; reflexivity).
  rewrite E6 in H. rewrite E1. clear E6 E1.
  unfold leb, SFleb in H. unfold ltb, SFltb.
  destruct d as [s | s | | s m e]; cbn [SFcompare] in *; try discriminate.
  - destruct s; [discriminate | reflexivity].
  - destruct s; [discriminate |].
    destruct (Z.compare_spec (-37) e) as [He | He | He];
      try discriminate;
      destruct (Z.compare_spec e (-43)) as [He' | He' | He'];
      try lia; reflexivity.
Qed.

Lemma below_1000_below_1e21 :
  forall m e,
    ltb (S754_finite false m e) (of_Z 1000) = true ->
    leb (of_Z (10 ^ 21)) (S754_finite false m e) = false.
Proof.
  intros m e H.
  assert (E1 : of_Z 1000 = S754_finite false 8796093022208000 (-43))
    by (vm_compute; reflexivity).
  assert (E21 : of_Z (10 ^ 21) = S754_finite false 7629394531250000 17)
    by (vm_compute; reflexivity).
  rewrite E1 in H. rewrite E21. clear E1 E21.
  unfold ltb, SFltb in H. unfold leb, SFleb. cbn [SFcompare] in *.
  destruct (Z.compare_spec e (-43)) as [He | He | He]; try discriminate;
    destruct (Z.compare_spec 17 e) as [He' | He' | He']; try lia; reflexivity.
Qed.

(** *** Sizes of mantissas

    [Zdigits2 m] is the number of binary digits of m; the lemmas below
    follow the mantissa and the exponent through the shifts and the
    rounding of [binary_round_aux], to bound the results of [div] and
    [rem]: they are never NaN or infinite on the durations at hand, and
    stay below 10^21, where [toFixed] prints digits. *)

Lemma digits2_pos_size : forall p, digits2_pos p = Pos.size p.
Proof. induction p; simpl; congruence. Qed.

Lemma Zdigits2_log2 : forall m, 0 < m -> Zdigits2 m = Z.log2 m + 1.
Proof.
  intros [| p | p] Hm; try lia.
  unfold Zdigits2. rewrite digits2_pos_size.
  destruct p; simpl; lia.
Qed.

Lemma Zdigits2_nonneg : forall m, 0 <= Zdigits2 m.
Proof. intros [| p | p]; simpl; lia. Qed.

Lemma Zdigits2_le : forall a b, 0 <= a <= b -> Zdigits2 a <= Zdigits2 b.
Proof.
  intros a b [Ha Hab].
  destruct (Z.eq_dec a 0) as [-> | Hne].
  - apply Zdigits2_nonneg.
  - rewrite !Zdigits2_log2 by lia.
    pose proof (Z.log2_le_mono a b Hab). lia.
Qed.

Lemma Zdigits2_div_pow2 :
  forall a n, 0 <= a -> 0 <= n ->
    Zdigits2 (a / 2 ^ n) <= Z.max 0 (Zdigits2 a - n).
Proof.
  intros a n Ha Hn.
  destruct (Z.eq_dec (a / 2 ^ n) 0) as [-> | Hne].
  - simpl. lia.
  - assert (Hq : 0 < a / 2 ^ n).
    { pose proof (Z.div_pos a (2 ^ n) Ha ltac:(apply Z.pow_pos_nonneg; lia)). lia. }
    assert (Ha' : 0 < a).
    { destruct (Z.eq_dec a 0) as [-> | ?]; [rewrite Zdiv_0_l in Hq; lia | lia]. }
    assert (Hn' : n <= Z.log2 a).
    { assert (Hp : 0 < 2 ^ n) by (apply Z.pow_pos_nonneg; lia).
      assert (Hle : 2 ^ n <= a).
      { destruct (Z_lt_le_dec a (2 ^ n)) as [Hlt | Hge]; [| exact Hge].
        rewrite Z.div_small in Hq by lia. lia. }
      pose proof (Z.log2_le_mono _ _ Hle) as Hmono.
      rewrite Z.log2_pow2 in Hmono by lia. exact Hmono. }
    rewrite !Zdigits2_log2 by lia.
    rewrite <- Z.shiftr_div_pow2 by lia.
    rewrite Z.log2_shiftr by lia. lia.
Qed.

Lemma Zdigits2_succ : forall a, 0 <= a -> Zdigits2 (a + 1) <= Zdigits2 a + 1.
Proof.
  intros a Ha.
  destruct (Z.eq_dec a 0) as [-> | Hne]; [simpl; lia |].
  rewrite !Zdigits2_log2 by lia.
  pose proof (Z.log2_succ_le a). unfold Z.succ in *. lia.
Qed.

Lemma Zdigits2_mul_pow2 :
  forall a n, 0 < a -> 0 <= n -> Zdigits2 (a * 2 ^ n) = Zdigits2 a + n.
Proof.
  intros a n Ha Hn.
  assert (0 < a * 2 ^ n) by (apply Z.mul_pos_pos; [lia | apply Z.pow_pos_nonneg; lia]).
  rewrite !Zdigits2_log2 by lia.
  rewrite <- Z.shiftl_mul_pow2 by lia.
  rewrite Z.log2_shiftl by lia. lia.
Qed.

Lemma shr_1_m :
  forall mrs, 0 <= shr_m mrs -> shr_m (shr_1 mrs) = shr_m mrs / 2.
Proof.
  intros [m r s] Hm. simpl in *.
  destruct m as [| p | p]; [reflexivity | | lia].
  destruct p as [p | p |]; simpl.
  - rewrite Pos2Z.inj_xI. symmetry.
    replace (2 * Z.pos p + 1) with (1 + Z.pos p * 2) by ring.
    rewrite Z.div_add by lia. reflexivity.
  - rewrite Pos2Z.inj_xO. symmetry.
    replace (2 * Z.pos p) with (Z.pos p * 2) by ring.
    apply Z.div_mul. lia.
  - reflexivity.
Qed.

Lemma iter_pos_shr_1_m :
  forall p mrs,
    0 <= shr_m mrs ->
    shr_m (iter_pos shr_1 p mrs) = shr_m mrs / 2 ^ Zpos p.
Proof.
  induction p as [p IH | p IH |]; intros mrs Hm; simpl iter_pos.
  - assert (H1 : 0 <= shr_m (shr_1 mrs))
      by (rewrite shr_1_m by lia; apply Z.div_pos; lia).
    assert (H2 : 0 <= shr_m (iter_pos shr_1 p (shr_1 mrs)))
      by (rewrite IH by lia; apply Z.div_pos; [lia | apply Z.pow_pos_nonneg; lia]).
    rewrite IH by lia. rewrite IH by lia. rewrite shr_1_m by lia.
    rewrite !Z.div_div by (try apply Z.pow_pos_nonneg; lia).
    f_equal. rewrite (Pos2Z.inj_xI p).
    replace (2 * Z.pos p + 1) with (1 + Z.pos p + Z.pos p) by lia.
    rewrite (Z.pow_add_r 2 (1 + Z.pos p) (Z.pos p)) by lia.
    rewrite (Z.pow_add_r 2 1 (Z.pos p)) by lia.
    change (2 ^ 1) with 2. ring.
  - assert (H2 : 0 <= shr_m (iter_pos shr_1 p mrs))
      by (rewrite IH by lia; apply Z.div_pos; [lia | apply Z.pow_pos_nonneg; lia]).
    rewrite IH by lia. rewrite IH by lia.
    rewrite !Z.div_div by (try apply Z.pow_pos_nonneg; lia).
    f_equal. rewrite (Pos2Z.inj_xO p).
    replace (2 * Z.pos p) with (Z.pos p + Z.pos p) by lia.
    rewrite (Z.pow_add_r 2 (Z.pos p) (Z.pos p)) by lia. ring.
  - rewrite shr_1_m by lia. reflexivity.
Qed.

Lemma shr_fexp_m :
  forall m e l,
    0 <= m ->
    exists mrs,
      shr_fexp prec emax m e l
      = (mrs, Z.max e (fexp prec emax (Zdigits2 m + e))) /\
      shr_m mrs = m / 2 ^ (Z.max e (fexp prec emax (Zdigits2 m + e)) - e).
Proof.
  intros m e l Hm. unfold shr_fexp, shr.
  assert (Hrec : shr_m (shr_record_of_loc m l) = m)
    by (destruct l as [| []]; reflexivity).
  destruct (fexp prec emax (Zdigits2 m + e) - e) as [| p | p] eqn:Hn.
  - eexists. split.
    + f_equal. lia.
    + rewrite Hrec. replace (Z.max _ _ - e) with 0 by lia.
      rewrite Z.div_1_r. reflexivity.
  - eexists. split.
    + f_equal. lia.
    + rewrite iter_pos_shr_1_m by lia. rewrite Hrec.
      f_equal. f_equal. lia.
  - eexists. split.
    + f_equal. lia.
    + rewrite Hrec. replace (Z.max _ _ - e) with 0 by lia.
      rewrite Z.div_1_r. reflexivity.
Qed.

Lemma round_nearest_even_cases :
  forall mx lx,
    round_nearest_even mx lx = mx \/ round_nearest_even mx lx = mx + 1.
Proof.
  intros mx [| []]; simpl; auto. destruct (Z.even mx); auto.
Qed.

(** The result of rounding a non-negative mantissa is zero or a finite
    positive number of at most 53 digits, with its exponent bounded by
    the exponent and the size of what was rounded. *)
Lemma fexp_eq : forall x, fexp prec emax x = Z.max (x - 53) (-1074).
Proof. intros x. reflexivity. Qed.

Lemma binary_round_aux_bounds :
  forall mx ex lx X Y,
    0 <= mx ->
    ex <= X ->
    Zdigits2 mx + ex <= Y ->
    Z.max (Z.max X (Y - 52)) (-1074) <= 971 ->
    binary_round_aux prec emax false mx ex lx = S754_zero false \/
    exists m e,
      binary_round_aux prec emax false mx ex lx = S754_finite false m e /\
      Zdigits2 (Zpos m) <= 53 /\
      e <= Z.max (Z.max X (Y - 52)) (-1074) /\
      Zdigits2 (Zpos m) + e <= Z.max (Z.max X Y) (-1074) + 1.
Proof.
  intros mx ex lx X Y Hmx HX HY Hfin. unfold binary_round_aux.
  destruct (shr_fexp_m mx ex lx Hmx) as (mrs1 & Heq1 & Hm1).
  rewrite Heq1. rewrite fexp_eq in *.
  set (e1 := Z.max ex (Z.max (Zdigits2 mx + ex - 53) (-1074))) in *.
  assert (H1 : 0 <= shr_m mrs1).
  { rewrite Hm1. apply Z.div_pos; [lia | apply Z.pow_pos_nonneg; lia]. }
  assert (HD1 : Zdigits2 (shr_m mrs1) <= Z.max 0 (Zdigits2 mx - (e1 - ex))).
  { rewrite Hm1. apply Zdigits2_div_pow2; lia. }
  set (mx2 := round_nearest_even (shr_m mrs1) (loc_of_shr_record mrs1)).
  assert (H2 : 0 <= mx2 /\ Zdigits2 mx2 <= Zdigits2 (shr_m mrs1) + 1).
  { unfold mx2.
    destruct (round_nearest_even_cases (shr_m mrs1) (loc_of_shr_record mrs1))
      as [-> | ->].
    - lia.
    - split; [lia | apply Zdigits2_succ; lia]. }
  destruct H2 as [H2 HD2].
  destruct (shr_fexp_m mx2 e1 loc_Exact H2) as (mrs2 & Heq2 & Hm2).
  rewrite Heq2. rewrite fexp_eq in *.
  set (e2 := Z.max e1 (Z.max (Zdigits2 mx2 + e1 - 53) (-1074))) in *.
  assert (HD3 : Zdigits2 (shr_m mrs2) <= Z.max 0 (Zdigits2 mx2 - (e2 - e1))).
  { rewrite Hm2. apply Zdigits2_div_pow2; lia. }
  pose proof (Zdigits2_nonneg mx) as Hn0.
  assert (H3 : 0 <= shr_m mrs2).
  { rewrite Hm2. apply Z.div_pos; [lia | apply Z.pow_pos_nonneg; lia]. }
  destruct (shr_m mrs2) as [| m | m] eqn:Hm.
  - left. reflexivity.
  - right.
    assert (Hpos : 1 <= Zdigits2 (Z.pos m)) by (simpl; lia).
    assert (He2 : e2 <= Z.max (Z.max X (Y - 52)) (-1074)) by lia.
    replace (e2 <=? emax - prec) with true
      by (symmetry; apply Z.leb_le; unfold emax, prec; lia).
    exists m, e2. repeat split; lia.
  - lia.
Qed.

(** A quotient of positive finite numbers is zero or positive and
    finite, unless it overflows. *)
Lemma div_bounds :
  forall mx ex my ey X Y,
    ex - ey <= X ->
    Zdigits2 (Zpos mx) + ex - ey <= Y ->
    Z.max (Z.max X (Y - 52)) (-1074) <= 971 ->
    div (S754_finite false mx ex) (S754_finite false my ey) = S754_zero false \/
    exists m e,
      div (S754_finite false mx ex) (S754_finite false my ey)
      = S754_finite false m e /\
      Zdigits2 (Zpos m) <= 53 /\
      e <= Z.max (Z.max X (Y - 52)) (-1074).
Proof.
  intros mx ex my ey X Y HX HY Hfin.
  unfold div, SFdiv, SFdiv_core_binary. cbn [xorb].
  set (e' := Z.min _ (ex - ey)).
  set (m' := match ex - ey - e' with
             | 0 => Z.pos mx
             | Z.pos _ => Z.shiftl (Z.pos mx) (ex - ey - e')
             | Z.neg _ => 0
             end).
  assert (He' : e' <= ex - ey) by (unfold e'; lia).
  assert (Hm' : m' = Z.pos mx * 2 ^ (ex - ey - e')).
  { unfold m'. destruct (ex - ey - e') as [| s | s] eqn:Hs.
    - simpl. lia.
    - rewrite Z.shiftl_mul_pow2 by lia. reflexivity.
    - lia. }
  destruct (Z.div_eucl m' (Z.pos my)) as [q r] eqn:Hdiv.
  assert (Hq : q = m' / Z.pos my) by (unfold Z.div; rewrite Hdiv; reflexivity).
  assert (Hp2 : 0 < 2 ^ (ex - ey - e')) by (apply Z.pow_pos_nonneg; lia).
  assert (Hm'pos : 0 < m') by (rewrite Hm'; lia).
  assert (Hq0 : 0 <= q) by (rewrite Hq; apply Z.div_pos; lia).
  assert (Hqm : q <= m').
  { rewrite Hq. apply Z.div_le_upper_bound; [lia | nia]. }
  assert (HDq : Zdigits2 q + e' <= Y).
  { pose proof (Zdigits2_le q m' (conj Hq0 Hqm)) as Hle.
    rewrite Hm' in Hle. rewrite Zdigits2_mul_pow2 in Hle by lia. lia. }
  destruct (binary_round_aux_bounds q e' (new_location (Z.pos my) r) X Y
              Hq0 ltac:(lia) HDq Hfin) as [Hz | (m & e & Hf & Hd & He & _)].
  - left. exact Hz.
  - right. exists m, e. repeat split; assumption.
Qed.

Lemma exponent_below_1e21 :
  forall m e, e <= 16 -> leb (of_Z (10 ^ 21)) (S754_finite false m e) = false.
Proof.
  intros m e He.
  assert (E21 : of_Z (10 ^ 21) = S754_finite false 7629394531250000 17)
    by (vm_compute; reflexivity).
  rewrite E21. unfold leb, SFleb. cbn [SFcompare].
  destruct (Z.compare_spec 17 e); try lia; reflexivity.
Qed.

Lemma toFixed_nearest_to :
  forall q f,
    (q = S754_zero false \/
     exists m e, q = S754_finite false m e /\ e <= 16) ->
    exists c, toFixed q f = fixed_digits c f /\ nearest_to c q (Z.of_nat f).
Proof.
  intros q f [-> | (m & e & -> & He)].
  - exists 0. split; reflexivity.
  - destruct (toFixed_nearest m e f (exponent_below_1e21 m e He))
      as (c & Hfix & Hnear).
    exists c. split; assumption.
Qed.

Lemma valid_binary_digits :
  forall s m e,
    valid_binary prec emax (S754_finite s m e) = true ->
    Zdigits2 (Zpos m) <= 53.
Proof.
  intros s m e H. unfold valid_binary, bounded, canonical_mantissa in H.
  apply andb_true_iff in H. destruct H as [H _].
  apply Z.eqb_eq in H. rewrite fexp_eq in H. simpl Zdigits2. lia.
Qed.

Lemma shl_align_spec :
  forall mx ex ex',
    snd (shl_align mx ex ex') <= ex /\
    Zpos (fst (shl_align mx ex ex'))
    = Zpos mx * 2 ^ (ex - snd (shl_align mx ex ex')).
Proof.
  intros mx ex ex'. unfold shl_align.
  destruct (ex' - ex) as [| d | d] eqn:Hd; cbn [fst snd].
  - split; [lia |]. rewrite Z.sub_diag. simpl. lia.
  - split; [lia |]. rewrite Z.sub_diag. simpl. lia.
  - split; [lia |].
    change (Pos.iter xO mx d) with (shift_pos d mx).
    rewrite shift_pos_correct.
    replace (ex - ex') with (Z.pos d) by lia.
    change (Z.pow_pos 2 d) with (2 ^ Z.pos d). ring.
Qed.

(** The remainder modulo 60000 of a positive finite number is zero or
    a positive finite number below 2^17. *)
Lemma rem_60000_bounds :
  forall m e,
    rem (S754_finite false m e) (of_Z 60000) = S754_zero false \/
    exists mr er,
      rem (S754_finite false m e) (of_Z 60000) = S754_finite false mr er /\
      Zdigits2 (Zpos mr) <= 53 /\
      er <= -36.
Proof.
  intros m e.
  assert (E6 : of_Z 60000 = S754_finite false 8246337208320000 (-37))
    by (vm_compute; reflexivity).
  rewrite E6. unfold rem, pow2.
  set (e0 := Z.min e (-37)).
  set (N := Z.pos m * 2 ^ (e - e0)).
  set (D := 8246337208320000 * 2 ^ (-37 - e0)).
  assert (Hp : 0 < 2 ^ (-37 - e0)) by (apply Z.pow_pos_nonneg; lia).
  assert (HD : 0 < D) by (unfold D; lia).
  pose proof (Z.mod_pos_bound N D HD) as HR.
  destruct (N mod D) as [| R | R] eqn:HRd; [left; reflexivity | | lia].
  unfold binary_normalize, binary_round.
  pose proof (shl_align_spec R e0
                (fexp prec emax (Z.pos (digits2_pos R) + e0))) as [Hez Hmz].
  destruct (shl_align R e0 (fexp prec emax (Z.pos (digits2_pos R) + e0)))
    as [mz ez]. cbn [fst snd] in Hez, Hmz.
  assert (Hp' : 0 < 2 ^ (e0 - ez)) by (apply Z.pow_pos_nonneg; lia).
  assert (HdigR : Zdigits2 (Z.pos R) + e0 <= 16).
  { pose proof (Zdigits2_le (Z.pos R) D ltac:(lia)) as Hle.
    unfold D in Hle. rewrite Zdigits2_mul_pow2 in Hle by lia.
    change (Zdigits2 8246337208320000) with 53 in Hle. lia. }
  assert (Hdig : Zdigits2 (Z.pos mz) + ez <= 16).
  { rewrite Hmz. rewrite Zdigits2_mul_pow2 by lia. lia. }
  destruct (binary_round_aux_bounds (Z.pos mz) ez loc_Exact (-37) 16
              ltac:(lia) ltac:(lia) Hdig ltac:(lia))
    as [Hz | (mr & er & Hf & Hd & He & _)].
  - left. exact Hz.
  - right. exists mr, er. repeat split; [exact Hf | exact Hd | lia].
Qed.

Lemma below_60000_exponent :
  forall m e,
    ltb (S754_finite false m e) (of_Z 60000) = true -> e <= -37.
Proof.
  intros m e H.
  assert (E6 : of_Z 60000 = S754_finite false 8246337208320000 (-37))
    by (vm_compute; reflexivity).
  rewrite E6 in H. unfold ltb, SFltb in H. cbn [SFcompare] in H.
  destruct (Z.compare_spec e (-37)); try discriminate; lia.
Qed.

Lemma of_Z_1000 : of_Z 1000 = S754_finite false 8796093022208000 (-43).
Proof. vm_compute. reflexivity. Qed.

(** From one second and below one minute: hundredths of a second, the
    nearest to the quotient. *)
Lemma seconds_nearest :
  forall d,
    valid_binary prec emax d = true ->
    leb (of_Z 1000) d = true ->
    ltb d (of_Z 60000) = true ->
    exists c,
      formatRuntime d = fixed_digits c 2 ++ "s" /\
      nearest_to c (div d (of_Z 1000)) 2.
Proof.
  intros d Hvalid Hlo Hhi.
  assert (Hfmt : formatRuntime d = toFixed (div d (of_Z 1000)) 2 ++ "s").
  { unfold formatRuntime. rewrite (leb_not_ltb _ _ Hlo), Hhi. reflexivity. }
  assert (Hfin : exists m e, d = S754_finite false m e).
  { rewrite of_Z_1000 in Hlo.
    assert (E6 : of_Z 60000 = S754_finite false 8246337208320000 (-37))
      by (vm_compute; reflexivity).
    rewrite E6 in Hhi.
    destruct d as [s | [|] | | [|] m e]; try discriminate Hlo;
      try discriminate Hhi.
    exists m, e. reflexivity. }
  destruct Hfin as (m & e & ->).
  pose proof (valid_binary_digits _ _ _ Hvalid) as Hdig.
  pose proof (below_60000_exponent m e Hhi) as He.
  assert (Hq : div (S754_finite false m e) (of_Z 1000) = S754_zero false \/
               exists mq eq,
                 div (S754_finite false m e) (of_Z 1000)
                 = S754_finite false mq eq /\ eq <= 16).
  { rewrite of_Z_1000.
    destruct (div_bounds m e 8796093022208000 (-43) 6 59
                ltac:(lia) ltac:(lia) ltac:(lia))
      as [Hz | (mq & eq & Hf & _ & Hle)].
    - left. exact Hz.
    - right. exists mq, eq. split; [exact Hf | lia]. }
  destruct (toFixed_nearest_to _ 2 Hq) as (c & Hfix & Hnear).
  exists c. split; [| exact Hnear]. rewrite Hfmt, Hfix. reflexivity.
Qed.

(** From one minute on: whole minutes, and whole seconds, the nearest
    to the quotient of the remainder. *)
Lemma minutes_seconds_nearest :
  forall m e,
    leb (of_Z 60000) (S754_finite false m e) = true ->
    exists c,
      formatRuntime (S754_finite false m e)
      = toString (floor (div (S754_finite false m e) (of_Z 60000))) ++ "m " ++
        decimal c ++ "s" /\
      nearest_to c
        (div (rem (S754_finite false m e) (of_Z 60000)) (of_Z 1000)) 0.
Proof.
  intros m e Hlo.
  set (d := S754_finite false m e) in *.
  assert (Hq : div (rem d (of_Z 60000)) (of_Z 1000) = S754_zero false \/
               exists mq eq,
                 div (rem d (of_Z 60000)) (of_Z 1000)
                 = S754_finite false mq eq /\ eq <= 16).
  { destruct (rem_60000_bounds m e) as [Hz | (mr & er & Hf & Hd & He)];
      fold d in Hz || fold d in Hf.
    - left. rewrite Hz, of_Z_1000. reflexivity.
    - rewrite Hf, of_Z_1000.
      destruct (div_bounds mr er 8796093022208000 (-43) 7 60
                  ltac:(lia) ltac:(lia) ltac:(lia))
        as [Hz | (mq & eq & Hf' & _ & Hle)].
      + left. exact Hz.
      + right. exists mq, eq. split; [exact Hf' | lia]. }
  destruct (toFixed_nearest_to _ 0 Hq) as (c & Hfix & Hnear).
  exists c. split; [| exact Hnear].
  unfold formatRuntime.
  rewrite (from_60000_not_below_1000 d Hlo), (leb_not_ltb _ _ Hlo).
  cbv zeta. rewrite Hfix. reflexivity.
Qed.

(** C4 - [formatRuntime] gives the five strings of the specification,
    and on every binary64 duration follows the three buckets: a positive
    duration below 1000 is printed as the integer nearest to it, then
    "ms"; a duration from 1000 and below 60000 as the hundredths nearest
    to its quotient by 1000, with two decimals, then "s"; a finite
    duration from 60000 on as [Math.floor] of its quotient by 60000,
    "m ", the integer nearest to the quotient by 1000 of its remainder
    modulo 60000, "s".  Quotients are binary64 quotients; on a tie the
    larger neighbour is printed.  A whole number of milliseconds below
    1000 is printed as it is. *)
Theorem formatRuntime_buckets :
  (formatRuntime (of_Z 999) = "999ms" /\
   formatRuntime (of_Z 1000) = "1.00s" /\
   formatRuntime (of_Z 59999) = "60.00s" /\
   formatRuntime (of_Z 60000) = "1m 0s" /\
   formatRuntime (of_Z 125000) = "2m 5s") /\
  (forall m e,
      ltb (S754_finite false m e) (of_Z 1000) = true ->
      exists n,
        formatRuntime (S754_finite false m e) = decimal n ++ "ms" /\
        nearest_to n (S754_finite false m e) 0) /\
  (forall d,
      valid_binary prec emax d = true ->
      leb (of_Z 1000) d = true ->
      ltb d (of_Z 60000) = true ->
      exists c,
        formatRuntime d = fixed_digits c 2 ++ "s" /\
        nearest_to c (div d (of_Z 1000)) 2) /\
  (forall m e,
      leb (of_Z 60000) (S754_finite false m e) = true ->
      exists c,
        formatRuntime (S754_finite false m e)
        = toString (floor (div (S754_finite false m e) (of_Z 60000))) ++ "m " ++
          decimal c ++ "s" /\
        nearest_to c
          (div (rem (S754_finite false m e) (of_Z 60000)) (of_Z 1000)) 0) /\
  (forall n, 0 <= n < 1000 -> formatRuntime (of_Z n) = whole_ms n).
Proof.
  split; [| split; [| split; [| split]]].
  - repeat split; vm_compute; reflexivity.
  - intros m e Hd.
    destruct (toFixed_nearest m e 0 (below_1000_below_1e21 m e Hd))
      as (n & Hfix & Hnear).
    exists n. split; [| exact Hnear].
    unfold formatRuntime. rewrite Hd, Hfix. reflexivity.
  - exact seconds_nearest.
  - exact minutes_seconds_nearest.
  - exact whole_ms_below_1000.
Qed.

Lemma formatRuntime_buckets_witness :
  (exists n,
      formatRuntime (S754_finite false 8791694975696896 (-43))
      = decimal n ++ "ms" /\
      nearest_to n (S754_finite false 8791694975696896 (-43)) 0) /\
  (exists c,
      formatRuntime (of_Z 59999) = fixed_digits c 2 ++ "s" /\
      nearest_to c (div (of_Z 59999) (of_Z 1000)) 2) /\
  (exists c,
      formatRuntime (S754_finite false 8589934592000000 (-36))
      = toString (floor (div (S754_finite false 8589934592000000 (-36))
                             (of_Z 60000))) ++ "m " ++
        decimal c ++ "s" /\
      nearest_to c
        (div (rem (S754_finite false 8589934592000000 (-36)) (of_Z 60000))
             (of_Z 1000)) 0) /\
  formatRuntime (of_Z 250) = whole_ms 250.
Proof.
  destruct formatRuntime_buckets as (_ & Hms & Hs & Hm & Hwhole).
  split; [| split; [| split]].
  - apply Hms. vm_compute. reflexivity.
  - apply Hs; vm_compute; reflexivity.
  - apply Hm. vm_compute. reflexivity.
  - apply Hwhole. lia.
Defined.

(* ================================================================== *)
(** * Further properties *)

Import Invariants.

(** ** One invocation of [handleAnalyze], whatever the answer *)

(** What the part after the [await] does, by cases: on a 2xx response
    with a body other than null it logs, stores and navigates; in every
    other case the [try] block throws at once and the [catch] block
    runs; [finally] follows in both. *)
Lemma handleAnalyze_resume_cases :
  forall c w st,
    (exists j,
        outcome w = FetchResponds true (BodyJson j) /\ j <> JNull /\
        handleAnalyze_resume c w st
        = setIsLoading false
            (router_push "/analyze/result"
               (storeResult (Success c j (endTime w))
                  (console_write
                     (ConsoleLog "Analysis Response:"
                        [("conclusion", field j "conclusion");
                         ("relevance", field j "relevance");
                         ("confidence", field j "confidence");
                         ("rationale", field j "rationale");
                         ("tool_trace", field j "tool_trace")]) st)))) \/
    (exists error,
        fst (try_block c w st) = Throw error /\
        handleAnalyze_resume c w st
        = setIsLoading false (catch_block error st)).
Proof.
  intros c [o t] st.
  destruct (try_block c {| outcome := o; endTime := t |} st)
    as [[[] | error] st1] eqn:Htry.
  - left.
    destruct o as [t0 | [|] [j | t0]];
      try (unfold try_block, bind, lift, throw in Htry;
           cbn [outcome negb] in Htry;
           try destruct (new_Error _); discriminate Htry).
    destruct (json_is_null j) eqn:Hnull.
    + destruct j; try discriminate Hnull.
      unfold try_block, bind, lift in Htry. cbn in Htry. discriminate Htry.
    + assert (Hj : j <> JNull) by (intros ->; discriminate Hnull).
      exists j. split; [reflexivity | split; [exact Hj |]].
      unfold handleAnalyze_resume.
      change {| outcome := FetchResponds true (BodyJson j); endTime := t |}
        with (settled (FetchResponds true (BodyJson j)) t).
      rewrite (try_block_success c j t st Hj). reflexivity.
  - right. exists error.
    pose proof (try_block_throws_early _ _ _ _ _ Htry) as ->.
    split; [reflexivity |].
    unfold handleAnalyze_resume. rewrite Htry. reflexivity.
Qed.

(** X1 - Whatever the answer, one invocation issues exactly one request,
    the POST of the name in the input to the analysis endpoint, and
    leaves the text of the input as it is: nothing is retried, and the
    name is sent unchanged. *)
Theorem handleAnalyze_one_request :
  forall env now w st,
    requests (handleAnalyze env now w st)
    = (requests st ++ [analyze_request env (drugName st)])%list /\
    body (analyze_request env (drugName st))
    = JObj [("drug_name", JStr (drugName st))] /\
    method (analyze_request env (drugName st)) = "POST" /\
    drugName (handleAnalyze env now w st) = drugName st.
Proof.
  intros env now w st. unfold handleAnalyze.
  destruct (handleAnalyze_resume_cases (closure st now) w
              (handleAnalyze_start env st))
    as [(j & _ & _ & ->) | (error & _ & ->)];
    repeat split.
Qed.

(** X2 - Every invocation ends in exactly one of two ways, with the busy
    flag cleared: the Success value is stored, the route is the result
    view and no notification is added; or one notification is added and
    the store and the route are as before. *)
Theorem handleAnalyze_outcomes :
  forall c w st,
    let st' := handleAnalyze_resume c w st in
    isLoading st' = false /\
    ((exists j, succeeded c j (endTime w) st' /\ toasts st' = toasts st) \/
     (exists message, failed_with message st st')) /\
    ~ ((exists j, succeeded c j (endTime w) st' /\ toasts st' = toasts st) /\
       (exists message, failed_with message st st')).
Proof.
  intros c w st st'. split; [reflexivity | split].
  - unfold st'.
    destruct (handleAnalyze_resume_cases c w st)
      as [(j & _ & _ & ->) | (error & _ & ->)].
    + left. exists j. repeat split.
    + right. exists (error_text error). repeat split.
  - intros [(j & _ & Hsame) (message & Hmore & _)].
    rewrite Hsame in Hmore.
    apply (f_equal (@List.length string)) in Hmore.
    rewrite length_app in Hmore. simpl in Hmore. lia.
Qed.

(** ** The analyze page over any sequence of events *)

Lemma run_invariant :
  forall env (I : Page -> Prop),
    (forall p e, I p -> I (step env p e)) ->
    forall es p, I p -> I (run env p es).
Proof.
  intros env I Hstep. induction es as [| e es IH]; intros p Hp.
  - exact Hp.
  - simpl. apply IH. apply Hstep. exact Hp.
Qed.

Lemma remove_nth_length :
  forall (A : Type) (l : list A) i c,
    nth_error l i = Some c ->
    S (List.length (remove_nth i l)) = List.length l.
Proof.
  induction l as [| x l IH]; intros i c Hnth.
  - destruct i; discriminate Hnth.
  - destruct i as [| i]; simpl.
    + reflexivity.
    + f_equal. apply (IH i c). exact Hnth.
Qed.

Lemma remove_nth_Forall :
  forall (A : Type) (P : A -> Prop) (l : list A) i,
    Forall P l -> Forall P (remove_nth i l).
Proof.
  induction l as [| x l IH]; intros i Hall.
  - destruct i; constructor.
  - inversion Hall as [| ? ? Hx Hl]; subst.
    destruct i as [| i]; simpl.
    + exact Hl.
    + constructor; [exact Hx | apply IH; exact Hl].
Qed.

Lemma count_errors_app :
  forall l1 l2,
    count_errors (l1 ++ l2) = (count_errors l1 + count_errors l2)%nat.
Proof.
  induction l1 as [| [label payload | label error] l1 IH]; intros l2; simpl.
  - reflexivity.
  - apply IH.
  - f_equal. apply IH.
Qed.

Lemma step_accounted :
  forall env p e, accounted p -> accounted (step env p e).
Proof.
  intros env p e [Hreq Htoast]. destruct e as [text | now | i w].
  - split; assumption.
  - unfold step. destruct (button_disabled (ui p)); [split; assumption |].
    split; simpl.
    + rewrite !length_app. simpl. lia.
    + exact Htoast.
  - unfold step. destruct (nth_error (inflight p) i) as [c |] eqn:Hnth;
      [| split; assumption].
    pose proof (remove_nth_length _ _ _ _ Hnth) as Hlen.
    unfold accounted. cbn [ui inflight].
    destruct (handleAnalyze_resume_cases c w (ui p))
      as [(j & _ & _ & ->) | (error & _ & ->)]; simpl.
    + rewrite length_app, count_errors_app. simpl. lia.
    + rewrite !length_app, count_errors_app. simpl. lia.
Qed.

(** X3 - From a freshly mounted page on, every request issued is either
    still pending or has left exactly one console entry, and there is
    exactly one notification for every [console.error] entry: no answer
    is dropped or handled twice. *)
Theorem requests_accounted :
  forall env s path es,
    let p := run env (mount s path) es in
    List.length (requests (ui p))
    = (List.length (console (ui p)) + List.length (inflight p))%nat /\
    List.length (toasts (ui p)) = count_errors (console (ui p)).
Proof.
  intros env s path es.
  apply (run_invariant env accounted (step_accounted env)).
  split; reflexivity.
Qed.

Lemma step_result_kept :
  forall env p e, result (ui p) <> None -> result (ui (step env p e)) <> None.
Proof.
  intros env p e Hres. destruct e as [text | now | i w].
  - exact Hres.
  - unfold step. destruct (button_disabled (ui p)); exact Hres.
  - unfold step. destruct (nth_error (inflight p) i) as [c |]; [| exact Hres].
    cbn [ui].
    destruct (handleAnalyze_resume_cases c w (ui p))
      as [(j & _ & _ & ->) | (error & _ & ->)]; simpl.
    + discriminate.
    + exact Hres.
Qed.

(** X4 - Once the store holds a result it holds one for good: no input
    change, click or answer, failed ones included, ever empties it. *)
Theorem store_never_emptied :
  forall env p es,
    result (ui p) <> None ->
    result (ui (run env p es)) <> None.
Proof.
  intros env p es.
  apply (run_invariant env (fun p => result (ui p) <> None)
           (step_result_kept env)).
Qed.

Lemma store_never_emptied_witness :
  result
    (ui (run None
           {| ui := storeResult
                      (Success (closure (example_state "JQ1") (of_Z 0))
                         (JObj []) (of_Z 5))
                      (example_state "JQ1");
              inflight := [] |}
           [Click (of_Z 10);
            Settle 0 (settled (FetchRejects (NonError VUndefined)) (of_Z 20))]))
  <> None.
Proof.
  apply store_never_emptied. discriminate.
Defined.

Lemma step_result_route :
  forall env p e,
    result_route_has_result p -> result_route_has_result (step env p e).
Proof.
  intros env p e Hinv. destruct e as [text | now | i w].
  - exact Hinv.
  - unfold step. destruct (button_disabled (ui p)); exact Hinv.
  - unfold step. destruct (nth_error (inflight p) i) as [c |]; [| exact Hinv].
    unfold result_route_has_result. cbn [ui].
    destruct (handleAnalyze_resume_cases c w (ui p))
      as [(j & _ & _ & ->) | (error & _ & ->)]; simpl.
    + discriminate.
    + exact Hinv.
Qed.

(** X5 - A page mounted on another route than the result view is on the
    route of the result view only when the store holds a result: it
    never navigates there with an empty store. *)
Theorem result_route_only_with_result :
  forall env s path es,
    path <> "/analyze/result" ->
    let p := run env (mount s path) es in
    route (ui p) = "/analyze/result" -> result (ui p) <> None.
Proof.
  intros env s path es Hpath.
  apply (run_invariant env result_route_has_result (step_result_route env)).
  intros Hroute. simpl in Hroute. contradiction.
Qed.

Lemma result_route_only_with_result_witness :
  result
    (ui (run None (mount None "/analyze")
           [Change "JQ1"; Click (of_Z 10);
            Settle 0 (settled (FetchResponds true (BodyJson (JObj [])))
                         (of_Z 20))]))
  <> None.
Proof.
  apply (result_route_only_with_result None None "/analyze"
           [Change "JQ1"; Click (of_Z 10);
            Settle 0 (settled (FetchResponds true (BodyJson (JObj [])))
                         (of_Z 20))]).
  - discriminate.
  - reflexivity.
Defined.

Lemma enabled_name :
  forall st, button_disabled st = false -> drugName st <> "".
Proof.
  intros st Hen Hname. unfold button_disabled in Hen.
  rewrite Hname in Hen. rewrite orb_true_r in Hen. discriminate Hen.
Qed.

Lemma step_named :
  forall env p e, named env p -> named env (step env p e).
Proof.
  intros env p e (Hfly & Hres & Hreq). destruct e as [text | now | i w].
  - repeat split; assumption.
  - unfold step. destruct (button_disabled (ui p)) eqn:Hen;
      [repeat split; assumption |].
    pose proof (enabled_name _ Hen) as Hname.
    repeat split; cbn [ui inflight].
    + apply Forall_app. split; [exact Hfly |].
      constructor; [exact Hname | constructor].
    + exact Hres.
    + simpl. apply Forall_app. split; [exact Hreq |].
      constructor; [| constructor].
      exists (drugName (ui p)). split; [reflexivity | exact Hname].
  - unfold step. destruct (nth_error (inflight p) i) as [c |] eqn:Hnth;
      [| repeat split; assumption].
    assert (Hc : c_drugName c <> "").
    { apply nth_error_In in Hnth.
      rewrite Forall_forall in Hfly. apply Hfly. exact Hnth. }
    unfold named. cbn [ui inflight].
    destruct (handleAnalyze_resume_cases c w (ui p))
      as [(j & _ & _ & ->) | (error & _ & ->)]; simpl.
    + repeat split.
      * apply remove_nth_Forall. exact Hfly.
      * intros r Hr. injection Hr as <-. exact Hc.
      * exact Hreq.
    + repeat split.
      * apply remove_nth_Forall. exact Hfly.
      * exact Hres.
      * exact Hreq.
Qed.

(** X6 - On a page mounted with an empty store, no request is ever sent
    for the empty name, and the store never holds a result whose
    compound is the empty name. *)
Theorem no_empty_name :
  forall env path es,
    let p := run env (mount None path) es in
    (forall r, result (ui p) = Some r -> compound r <> "") /\
    Forall (fun q => exists name, q = analyze_request env name /\ name <> "")
           (requests (ui p)).
Proof.
  intros env path es.
  assert (Hinv : named env (run env (mount None path) es)).
  { apply (run_invariant env (named env) (step_named env)).
    repeat split; try constructor. intros r Hr. discriminate Hr. }
  destruct Hinv as (_ & Hres & Hreq). split; assumption.
Qed.

Lemma no_empty_name_witness :
  compound (Success {| c_drugName := " "; c_startTime := of_Z 10 |}
              (JObj []) (of_Z 20))
  <> "".
Proof.
  apply (proj1 (no_empty_name None "/analyze"
                  [Change " "; Click (of_Z 10);
                   Settle 0 (settled (FetchResponds true (BodyJson (JObj [])))
                                (of_Z 20))])).
  reflexivity.
Defined.

(** X7 - The page is busy exactly while a request is pending; once
    nothing is pending, a click with a non-empty name starts the next
    invocation, so a failed submission can always be retried. *)
Theorem retry_after_settling :
  forall env s path es now,
    let p := run env (mount s path) es in
    (isLoading (ui p) = true <-> inflight p <> []) /\
    (inflight p = [] ->
     drugName (ui p) <> "" ->
     requests (ui (step env p (Click now)))
     = (requests (ui p) ++ [analyze_request env (drugName (ui p))])%list /\
     inflight (step env p (Click now)) = [closure (ui p) now]).
Proof.
  intros env s path es now p.
  assert (Hinv : busy_iff_inflight p).
  { apply run_busy_iff_inflight. left. split; reflexivity. }
  split.
  - destruct Hinv as [[Hq Hl] | [[c Hq] Hl]]; rewrite Hq, Hl; split;
      intros H; congruence.
  - intros Hq Hname.
    assert (Hl : isLoading (ui p) = false).
    { destruct Hinv as [[_ Hl] | [[c Hc] _]]; [exact Hl |].
      rewrite Hq in Hc. discriminate Hc. }
    assert (Hen : button_disabled (ui p) = false).
    { unfold button_disabled. rewrite Hl. simpl.
      apply String.eqb_neq in Hname. rewrite Hname. reflexivity. }
    unfold step. rewrite Hen. cbn [ui inflight]. rewrite Hq.
    split; reflexivity.
Qed.

Lemma retry_after_settling_witness :
  let p := run None (mount None "/analyze")
             [Change "JQ1"; Click (of_Z 10);
              Settle 0 (settled (FetchResponds false (BodyRejects (NonError VUndefined)))
                           (of_Z 20))] in
  requests (ui (step None p (Click (of_Z 30))))
  = (requests (ui p) ++ [analyze_request None "JQ1"])%list /\
  inflight (step None p (Click (of_Z 30)))
  = [closure (ui p) (of_Z 30)].
Proof.
  apply (proj2 (retry_after_settling None None "/analyze"
                  [Change "JQ1"; Click (of_Z 10);
                   Settle 0 (settled (FetchResponds false
                                        (BodyRejects (NonError VUndefined)))
                                (of_Z 20))] (of_Z 30))).
  - reflexivity.
  - discriminate.
Defined.

Lemma run_app :
  forall env p es1 es2,
    run env p (es1 ++ es2) = run env (run env p es1) es2.
Proof.
  intros env p es1 es2. unfold run. apply fold_left_app.
Qed.

Lemma run_changes_inflight :
  forall env texts p,
    inflight (run env p (map Change texts)) = inflight p.
Proof.
  intros env. induction texts as [| text texts IH]; intros p.
  - reflexivity.
  - simpl. rewrite IH. reflexivity.
Qed.

(** X8 - The compound that is stored and shown is the name that was in
    the input at the click, however the input is edited while the
    request is pending; the result page rendered with the store then
    shows the view of exactly that Success value and does not
    navigate. *)
Theorem submitted_name_is_shown :
  forall env p now texts j t,
    button_disabled (ui p) = false ->
    inflight p = [] ->
    j <> JNull ->
    let p' := run env p
                (Click now :: map Change texts ++
                 [Settle 0 (settled (FetchResponds true (BodyJson j)) t)]) in
    succeeded (closure (ui p) now) j t (ui p') /\
    ResultContent [OtherNode "Suspense"; AnalysisProviderNode (result (ui p'))]
    = Normal {| output := result_view (Success (closure (ui p) now) j t);
                pushes := [] |}.
Proof.
  intros env p now texts j t Hen Hq Hj p'.
  assert (Hui : exists st,
             ui p' = handleAnalyze_resume (closure (ui p) now)
                       (settled (FetchResponds true (BodyJson j)) t) st).
  { unfold p'. change (Click now :: map Change texts ++ ?l)
      with ([Click now] ++ (map Change texts ++ l))%list.
    rewrite run_app, run_app.
    set (p1 := run env p [Click now]).
    assert (Hp1 : inflight p1 = [closure (ui p) now]).
    { unfold p1. simpl. unfold step. rewrite Hen. simpl. rewrite Hq.
      reflexivity. }
    set (p2 := run env p1 (map Change texts)).
    assert (Hp2 : inflight p2 = [closure (ui p) now]).
    { unfold p2. rewrite run_changes_inflight. exact Hp1. }
    simpl. unfold step. rewrite Hp2. simpl.
    exists (ui p2). reflexivity. }
  destruct Hui as [st Hui]. rewrite Hui. unfold handleAnalyze_resume.
  rewrite (try_block_success _ j t _ Hj).
  repeat split.
Qed.

Lemma submitted_name_is_shown_witness :
  let p' := run None (example_page "JQ1")
              (Click (of_Z 100) :: map Change ["JQ"; "J"; ""] ++
               [Settle 0 (settled (FetchResponds true
                                     (BodyJson (JObj [("conclusion", JStr "ok")])))
                            (of_Z 350))]) in
  succeeded (closure (ui (example_page "JQ1")) (of_Z 100))
    (JObj [("conclusion", JStr "ok")]) (of_Z 350) (ui p') /\
  ResultContent [OtherNode "Suspense"; AnalysisProviderNode (result (ui p'))]
  = Normal {| output := result_view
                          (Success (closure (ui (example_page "JQ1")) (of_Z 100))
                             (JObj [("conclusion", JStr "ok")]) (of_Z 350));
              pushes := [] |}.
Proof.
  apply (submitted_name_is_shown None (example_page "JQ1") (of_Z 100)
           ["JQ"; "J"; ""] (JObj [("conclusion", JStr "ok")]) (of_Z 350)).
  - reflexivity.
  - reflexivity.
  - discriminate.
Defined.

(** ** The result page *)

Lemma keys_map_li :
  forall items idx, keys (map_li idx items) = seq idx (List.length items).
Proof.
  induction items as [| trace rest IH]; intros idx.
  - reflexivity.
  - simpl. f_equal. apply (IH (S idx)).
Qed.

(** X9 - The items of the list that [formatToolCall] makes of a non-empty
    array carry the keys 0, 1, ..., n-1 in this order: every item has a
    key and no two items share one. *)
Theorem formatToolCall_keys :
  forall items,
    items <> [] ->
    exists children,
      formatToolCall (VJson (JArr items)) = el "ul" "list-disc pl-5" children /\
      keys children = seq 0 (List.length items) /\
      NoDup (keys children).
Proof.
  intros items Hne. exists (map_li 0 items).
  destruct items as [| trace rest]; [contradiction |].
  split; [reflexivity |].
  rewrite keys_map_li. split; [reflexivity | apply seq_NoDup].
Qed.

Lemma formatToolCall_keys_witness :
  exists children,
    formatToolCall (VJson (JArr [JStr "a"; JStr "a"; JNum (of_Z 3)]))
    = el "ul" "list-disc pl-5" children /\
    keys children = seq 0 3 /\
    NoDup (keys children).
Proof.
  apply (formatToolCall_keys [JStr "a"; JStr "a"; JNum (of_Z 3)]).
  discriminate.
Defined.

Lemma useContext_nearest :
  forall pre s rest,
    Forall (fun a => exists name, a = OtherNode name) pre ->
    useContext (pre ++ AnalysisProviderNode s :: rest)
    = Some {| AnalysisContext.result := s |}.
Proof.
  induction pre as [| a pre IH]; intros s rest Hpre.
  - reflexivity.
  - inversion Hpre as [| ? ? [name ->] Hrest]; subst.
    simpl. apply IH. exact Hrest.
Qed.

(** X10 - [useAnalysis] reads the store of the nearest [AnalysisProvider]
    above the caller: components in between do not matter, and
    providers further up are shadowed. *)
Theorem useAnalysis_nearest :
  forall pre s rest,
    Forall (fun a => exists name, a = OtherNode name) pre ->
    useAnalysis (pre ++ AnalysisProviderNode s :: rest)
    = Normal {| AnalysisContext.result := s |}.
Proof.
  intros pre s rest Hpre. unfold useAnalysis.
  rewrite (useContext_nearest pre s rest Hpre). reflexivity.
Qed.

Lemma useAnalysis_nearest_witness :
  useAnalysis ([OtherNode "Suspense"; OtherNode "main"] ++
               AnalysisProviderNode initial ::
               [OtherNode "body";
                AnalysisProviderNode
                  (Some (Success (closure (example_state "JQ1") (of_Z 0))
                           (JObj []) (of_Z 5)))])
  = Normal {| AnalysisContext.result := initial |}.
Proof.
  apply useAnalysis_nearest.
  repeat constructor; eexists; reflexivity.
Defined.

(** *** [ScoreBar] *)

(** [SFcompare] orders the numbers other than NaN by their key. *)
Lemma leb_key :
  forall x y,
    leb x y = true <->
    x <> S754_nan /\ y <> S754_nan /\ key_le (order_key x) (order_key y).
Proof.
  intros x y. unfold leb, SFleb.
  destruct x as [[|] | [|] | | [|] mx ex], y as [[|] | [|] | | [|] my ey];
    cbn [SFcompare order_key key_le];
    try change (Pos.compare_cont Eq mx my) with (Pos.compare mx my);
    try (destruct (Z.compare_spec ex ey) as [He | He | He];
         destruct (Pos.compare_spec mx my) as [Hm | Hm | Hm]);
    cbn [CompOpp];
    (split;
     [ intros H; try discriminate H; repeat split; try discriminate; lia
     | intros (H1 & H2 & H3);
       first [reflexivity | congruence | exfalso; lia] ]).
Qed.

Lemma leb_trans :
  forall x y z, leb x y = true -> leb y z = true -> leb x z = true.
Proof.
  intros x y z Hxy Hyz.
  apply leb_key in Hxy. apply leb_key in Hyz. apply leb_key.
  destruct Hxy as (Hx & _ & Hxy). destruct Hyz as (_ & Hz & Hyz).
  repeat split; try assumption.
  unfold key_le in *.
  destruct (order_key x) as [[a1 b1] c1], (order_key y) as [[a2 b2] c2],
    (order_key z) as [[a3 b3] c3].
  lia.
Qed.

(** X11 - The colour of a score bar never gets worse when the score gets
    higher: red below yellow below green. *)
Theorem getColor_monotone :
  forall a b,
    leb a b = true ->
    (colour_rank (getColor a) <= colour_rank (getColor b))%nat.
Proof.
  intros a b Hab. unfold getColor.
  destruct (leb (of_Z 80) a) eqn:H80.
  - rewrite (leb_trans _ _ _ H80 Hab). apply Nat.le_refl.
  - destruct (leb (of_Z 50) a) eqn:H50.
    + rewrite (leb_trans _ _ _ H50 Hab).
      destruct (leb (of_Z 80) b); vm_compute; lia.
    + destruct (leb (of_Z 80) b), (leb (of_Z 50) b); vm_compute; lia.
Qed.

Lemma getColor_monotone_witness :
  (colour_rank (getColor (of_Z 49)) <= colour_rank (getColor (of_Z 50)))%nat.
Proof.
  apply getColor_monotone. vm_compute. reflexivity.
Defined.

(** X12 - For every whole score from 0 to 100 the bar is green from 80,
    yellow from 50 and red below, and its width and its text are the
    decimal numeral of the score followed by "%". *)
Theorem ScoreBar_whole_scores :
  forall n label,
    0 <= n <= 100 ->
    ScoreBar (of_Z n) label
    = el "div" "mb-2"
        [ el "div" "flex justify-between mb-1"
            [ el "span" "text-sm font-medium text-gray-700" [text label];
              el "span" "text-sm font-medium text-gray-700"
                 [NValue (VJson (JNum (of_Z n))); text "%"] ];
          el "div" "w-full bg-gray-200 rounded-full h-2.5"
            [ NElement "div"
                [("className",
                  PStr ("h-2.5 rounded-full " ++ whole_score_colour n));
                 ("style.width", PStr (decimal n ++ "%"))]
                [] ] ] /\
    toString (of_Z n) = decimal n.
Proof.
  intros n label Hn.
  assert (Hok : ((getColor (of_Z n) =? whole_score_colour n)%string &&
                 (toString (of_Z n) =? decimal n)%string) = true).
  { apply (all_from_spec
             (fun n => (getColor (of_Z n) =? whole_score_colour n)%string &&
                       (toString (of_Z n) =? decimal n)%string)
             (Z.to_nat 101) 0);
      [vm_compute; reflexivity | rewrite Z2Nat.id; lia]. }
  apply andb_true_iff in Hok. destruct Hok as [Hc Hw].
  apply String.eqb_eq in Hc. apply String.eqb_eq in Hw.
  unfold ScoreBar. rewrite Hc, Hw. split; reflexivity.
Qed.

Lemma ScoreBar_whole_scores_witness :
  toString (of_Z 87) = decimal 87.
Proof.
  apply (ScoreBar_whole_scores 87 "Relevance"). lia.
Defined.

(** ** The deploy page *)

Import DeployPage.

Ltac each_ascii a :=
  destruct a as [[|] [|] [|] [|] [|] [|] [|] [|]].

Lemma all_chars_app :
  forall P s1 s2,
    all_chars P (s1 ++ s2) = all_chars P s1 && all_chars P s2.
Proof.
  intros P. induction s1 as [| a s1 IH]; intros s2; simpl.
  - reflexivity.
  - rewrite IH. apply andb_assoc.
Qed.

Lemma all_chars_weaken :
  forall (P Q : ascii -> bool) s,
    (forall a, P a = true -> Q a = true) ->
    all_chars P s = true -> all_chars Q s = true.
Proof.
  intros P Q s HPQ. induction s as [| a s IH]; simpl; intros H.
  - reflexivity.
  - apply andb_true_iff in H. destruct H as [Ha Hs].
    rewrite (HPQ a Ha), (IH Hs). reflexivity.
Qed.

Lemma encode_char_component :
  forall a,
    all_chars component_char
      (if unreserved a then String a "" else percent_encode a) = true.
Proof.
  intros a. each_ascii a; vm_compute; reflexivity.
Qed.

Lemma encodeURIComponent_component :
  forall s, all_chars component_char (encodeURIComponent s) = true.
Proof.
  induction s as [| a s IH]; simpl.
  - reflexivity.
  - rewrite all_chars_app, encode_char_component, IH. reflexivity.
Qed.

(** No character of an encoded component is [c], for each of the
    characters that structure a URL. *)
Lemma component_char_not :
  forall a,
    component_char a = true ->
    (a =? "&")%char = false /\ (a =? "=")%char = false /\
    (a =? "#")%char = false /\ (a =? "?")%char = false /\
    (a =? "+")%char = false /\ (a =? "/")%char = false /\
    (a =? " ")%char = false.
Proof.
  intros a. each_ascii a; vm_compute; intros H;
    first [discriminate H | repeat split].
Qed.

Lemma encodeURIComponent_free :
  forall c s,
    (forall a, component_char a = true -> (a =? c)%char = false) ->
    all_chars (fun a => negb (a =? c)%char) (encodeURIComponent s) = true.
Proof.
  intros c s Hc.
  apply (all_chars_weaken component_char).
  - intros a Ha. rewrite (Hc a Ha). reflexivity.
  - apply encodeURIComponent_component.
Qed.

Lemma decode_encode_char :
  forall a t,
    percent_decode
      ((if unreserved a then String a "" else percent_encode a) ++ t)
    = String a (percent_decode t).
Proof.
  intros a t. each_ascii a; reflexivity.
Qed.

Lemma percent_decode_encode :
  forall s, percent_decode (encodeURIComponent s) = s.
Proof.
  induction s as [| a s IH]; simpl.
  - reflexivity.
  - rewrite decode_encode_char, IH. reflexivity.
Qed.

Lemma split_on_free :
  forall sep s,
    all_chars (fun a => negb (a =? sep)%char) s = true ->
    split_on sep s = [s].
Proof.
  intros sep. induction s as [| a s IH]; simpl; intros H.
  - reflexivity.
  - apply andb_true_iff in H. destruct H as [Ha Hs].
    apply negb_true_iff in Ha. rewrite Ha, (IH Hs). reflexivity.
Qed.

Lemma split_on_app :
  forall sep s rest,
    all_chars (fun a => negb (a =? sep)%char) s = true ->
    split_on sep (s ++ String sep rest) = s :: split_on sep rest.
Proof.
  intros sep. induction s as [| a s IH]; simpl; intros rest H.
  - rewrite Ascii.eqb_refl. reflexivity.
  - apply andb_true_iff in H. destruct H as [Ha Hs].
    apply negb_true_iff in Ha. rewrite Ha, (IH rest Hs). reflexivity.
Qed.

Lemma cut_free :
  forall sep s,
    all_chars (fun a => negb (a =? sep)%char) s = true ->
    cut sep s = (s, None).
Proof.
  intros sep. induction s as [| a s IH]; simpl; intros H.
  - reflexivity.
  - apply andb_true_iff in H. destruct H as [Ha Hs].
    apply negb_true_iff in Ha. rewrite Ha, (IH Hs). reflexivity.
Qed.

Lemma plus_to_space_free :
  forall s,
    all_chars (fun a => negb (a =? "+")%char) s = true ->
    plus_to_space s = s.
Proof.
  induction s as [| a s IH]; simpl; intros H.
  - reflexivity.
  - apply andb_true_iff in H. destruct H as [Ha Hs].
    apply negb_true_iff in Ha. rewrite Ha, (IH Hs). reflexivity.
Qed.

Lemma parse_component :
  forall s, percent_decode (plus_to_space (encodeURIComponent s)) = s.
Proof.
  intros s. rewrite plus_to_space_free.
  - apply percent_decode_encode.
  - apply encodeURIComponent_free. intros a Ha.
    apply (component_char_not a Ha).
Qed.

Lemma get_or_NA_not_empty :
  forall name params, get_or_NA name params <> "".
Proof.
  intros name params. unfold get_or_NA.
  destruct (get name params) as [v |]; [| discriminate].
  destruct (v =? "")%string eqn:Hv; [discriminate |].
  apply String.eqb_neq. exact Hv.
Qed.

(** The query that [handleDeploy] builds from three values. *)
Lemma search_of_deploy :
  forall r c m,
    search_of ("/deploy/finished?runtime=" ++ encodeURIComponent r ++
               "&cost=" ++ encodeURIComponent c ++
               "&metric=" ++ encodeURIComponent m)
    = "runtime=" ++ encodeURIComponent r ++
      "&cost=" ++ encodeURIComponent c ++
      "&metric=" ++ encodeURIComponent m.
Proof.
  intros r c m. unfold search_of.
  assert (Hfree : forall s,
             all_chars (fun a => negb (a =? "#")%char)
               (encodeURIComponent s) = true).
  { intros s. apply encodeURIComponent_free. intros a Ha.
    apply (component_char_not a Ha). }
  rewrite (cut_free "#").
  - reflexivity.
  - change ("/deploy/finished?runtime=" ++ encodeURIComponent r ++
            "&cost=" ++ encodeURIComponent c ++
            "&metric=" ++ encodeURIComponent m)
      with ("/deploy/finished?runtime=" ++
            (encodeURIComponent r ++
             ("&cost=" ++ (encodeURIComponent c ++
              ("&metric=" ++ encodeURIComponent m))))).
    rewrite !all_chars_app, !Hfree. reflexivity.
Qed.

Lemma parse_deploy_query :
  forall r c m,
    parse_query ("runtime=" ++ encodeURIComponent r ++
                 "&cost=" ++ encodeURIComponent c ++
                 "&metric=" ++ encodeURIComponent m)
    = [("runtime", r); ("cost", c); ("metric", m)].
Proof.
  intros r c m.
  assert (Hamp : forall prefix s,
             all_chars (fun a => negb (a =? "&")%char) prefix = true ->
             all_chars (fun a => negb (a =? "&")%char)
               (prefix ++ encodeURIComponent s) = true).
  { intros prefix s Hp. rewrite all_chars_app, Hp. simpl.
    apply encodeURIComponent_free. intros a Ha.
    apply (component_char_not a Ha). }
  unfold parse_query.
  change ("runtime=" ++ encodeURIComponent r ++
          "&cost=" ++ encodeURIComponent c ++
          "&metric=" ++ encodeURIComponent m)
    with (("runtime=" ++ encodeURIComponent r) ++
          String "&" (("cost=" ++ encodeURIComponent c) ++
                      String "&" ("metric=" ++ encodeURIComponent m))).
  rewrite split_on_app by (apply Hamp; reflexivity).
  rewrite split_on_app by (apply Hamp; reflexivity).
  rewrite split_on_free by (apply Hamp; reflexivity).
  cbn [filter String.eqb append negb map].
  unfold parse_pair. cbn [cut append Ascii.eqb Bool.eqb].
  cbn [plus_to_space percent_decode Ascii.eqb Bool.eqb].
  rewrite !parse_component. reflexivity.
Qed.

(** X13 - The query of the path that [handleDeploy] pushes parses, as
    [URLSearchParams] does, to exactly three parameters, runtime, cost
    and metric in this order, with the values the page had read (or
    "N/A"): whatever characters a value holds, it adds no parameter and
    comes back unchanged. *)
Theorem handleDeploy_query :
  forall searchParams,
    parse_query (search_of (handleDeploy searchParams))
    = [("runtime", get_or_NA "runtime" searchParams);
       ("cost", get_or_NA "cost" searchParams);
       ("metric", get_or_NA "metric" searchParams)].
Proof.
  intros searchParams. unfold handleDeploy. cbv zeta.
  rewrite search_of_deploy. apply parse_deploy_query.
Qed.

(** X14 - None of the three values in the pushed path is empty, a
    missing or empty parameter being replaced by "N/A"; and a deploy
    page rendered at the pushed path pushes the same path again. *)
Theorem handleDeploy_again :
  forall searchParams,
    get_or_NA "runtime" searchParams <> "" /\
    get_or_NA "cost" searchParams <> "" /\
    get_or_NA "metric" searchParams <> "" /\
    handleDeploy (parse_query (search_of (handleDeploy searchParams)))
    = handleDeploy searchParams.
Proof.
  intros searchParams.
  pose proof (get_or_NA_not_empty "runtime" searchParams) as Hr.
  pose proof (get_or_NA_not_empty "cost" searchParams) as Hc.
  pose proof (get_or_NA_not_empty "metric" searchParams) as Hm.
  repeat split; try assumption.
  unfold handleDeploy at 2. cbv zeta.
  rewrite search_of_deploy, parse_deploy_query.
  unfold handleDeploy. cbv zeta.
  assert (H1 : forall r c m, r <> "" ->
             get_or_NA "runtime" [("runtime", r); ("cost", c); ("metric", m)] = r).
  { intros r c m H. unfold get_or_NA. simpl.
    apply String.eqb_neq in H. rewrite H. reflexivity. }
  assert (H2 : forall r c m, c <> "" ->
             get_or_NA "cost" [("runtime", r); ("cost", c); ("metric", m)] = c).
  { intros r c m H. unfold get_or_NA. simpl.
    apply String.eqb_neq in H. rewrite H. reflexivity. }
  assert (H3 : forall r c m, m <> "" ->
             get_or_NA "metric" [("runtime", r); ("cost", c); ("metric", m)] = m).
  { intros r c m H. unfold get_or_NA. simpl.
    apply String.eqb_neq in H. rewrite H. reflexivity. }
  rewrite H1, H2, H3 by assumption. reflexivity.
Qed.

(** ** The message of a response that is not 2xx *)

Lemma GetOptional_field :
  forall j k, GetOptional (VJson j) k = field j k.
Proof.
  intros j k. destruct j; reflexivity.
Qed.

(** X15 - For a response that is not 2xx with a body that parses, the
    notification is decided by the detail of the body alone: the
    fallback text when it is absent or falsy (null, false, 0, the empty
    string), its conversion to a string when it is truthy (a number as
    its numeral, an array as its joined items), and the message of the
    TypeError when that conversion throws.  Store and route stay. *)
Theorem handleAnalyze_error_detail :
  forall c t st j,
    let st' := handleAnalyze_resume c
                 (settled (FetchResponds false (BodyJson j)) t) st in
    (ToBoolean (field j "detail") = false ->
     failed_with "Failed to analyze compound" st st') /\
    (forall s,
        ToBoolean (field j "detail") = true ->
        ToString (field j "detail") = Normal s ->
        failed_with s st st') /\
    (forall error,
        ToBoolean (field j "detail") = true ->
        ToString (field j "detail") = Throw error ->
        failed_with (error_text error) st st').
Proof.
  intros c t st j st'.
  assert (Htry : try_block c (settled (FetchResponds false (BodyJson j)) t) st
                 = bind (lift (new_Error
                                 (or_else (field j "detail")
                                    (str "Failed to analyze compound"))))
                     (fun e => throw e) st).
  { unfold try_block, settled. cbn [outcome negb].
    rewrite GetOptional_field. reflexivity. }
  unfold st', handleAnalyze_resume. rewrite Htry.
  unfold or_else, bind, lift, throw.
  split; [| split].
  - intros Hfalsy. rewrite Hfalsy. repeat split.
  - intros s Htruthy Hs. rewrite Htruthy.
    destruct (field j "detail") as [| d] eqn:Hd; [discriminate Htruthy |].
    unfold new_Error. rewrite Hs. repeat split.
  - intros error Htruthy He. rewrite Htruthy.
    destruct (field j "detail") as [| d] eqn:Hd; [discriminate Htruthy |].
    unfold new_Error. rewrite He. repeat split.
Qed.

Lemma handleAnalyze_error_detail_witness :
  failed_with "Failed to analyze compound"
    (example_state "JQ1")
    (handleAnalyze_resume (closure (example_state "JQ1") (of_Z 0))
       (settled (FetchResponds false (BodyJson (JObj [("detail", JNum (of_Z 0))])))
                (of_Z 9))
       (example_state "JQ1")) /\
  failed_with "[object Object],422"
    (example_state "JQ1")
    (handleAnalyze_resume (closure (example_state "JQ1") (of_Z 0))
       (settled (FetchResponds false
                   (BodyJson (JObj [("detail",
                                     JArr [JObj [("msg", JStr "field required")];
                                           JNum (of_Z 422)])])))
                (of_Z 9))
       (example_state "JQ1")) /\
  failed_with "Cannot convert object to primitive value"
    (example_state "JQ1")
    (handleAnalyze_resume (closure (example_state "JQ1") (of_Z 0))
       (settled (FetchResponds false
                   (BodyJson (JObj [("detail",
                                     JObj [("toString", JStr "x")])])))
                (of_Z 9))
       (example_state "JQ1")).
Proof.
  split; [| split].
  - apply (proj1 (handleAnalyze_error_detail
                    (closure (example_state "JQ1") (of_Z 0)) (of_Z 9)
                    (example_state "JQ1")
                    (JObj [("detail", JNum (of_Z 0))]))).
    reflexivity.
  - apply (proj1 (proj2 (handleAnalyze_error_detail
                    (closure (example_state "JQ1") (of_Z 0)) (of_Z 9)
                    (example_state "JQ1")
                    (JObj [("detail",
                            JArr [JObj [("msg", JStr "field required")];
                                  JNum (of_Z 422)])])))).
    + reflexivity.
    + vm_compute. reflexivity.
  - apply (proj2 (proj2 (handleAnalyze_error_detail
                    (closure (example_state "JQ1") (of_Z 0)) (of_Z 9)
                    (example_state "JQ1")
                    (JObj [("detail", JObj [("toString", JStr "x")])])))
             TypeError_primitive).
    + reflexivity.
    + reflexivity.
Defined.
